(** * Obstetric dating engine ([src/lib/utils/pregnancy-calculator.ts])

    A shallow embedding of the pregnancy calculator and of the parts of
    ECMAScript and date-fns it relies on, followed by the properties of the
    dating and redating algorithm.

    Modelling conventions.
    - A JavaScript [number] that holds an integer is a [Z]; the only
      non-integer value the calculator can produce is [NaN], which is kept.
      The gestational age at the scan arrives as integers or [undefined]:
      the calling hook parses the form fields with [parseInt] and passes
      [undefined] for [NaN].
    - A [Date] is its time value: an integer count of milliseconds since the
      epoch, at most [maxTime] in absolute value, or the Invalid Date.
      Every date the library builds goes through [TimeClip], as in
      ECMAScript.
    - The local time zone has a constant offset from UTC (no daylight-saving
      transitions), given by the environment together with the clock.
    - A call either completes normally or throws; the only exception in
      reach of the calculator is the [RangeError] of date-fns' [format]. *)

From Stdlib Require Import ZArith List String Ascii Bool Lia DecimalString.
Import ListNotations.

Local Open Scope string_scope.
Local Open Scope Z_scope.

(* ------------------------------------------------------------------ *)
(** ** JavaScript numbers and completions *)

Module JS.

Inductive number : Set :=
| Num (z : Z)
| NaN.

(** Relational operators: every comparison with [NaN] is false. *)
Definition lt (a b : number) : bool :=
  match a, b with Num x, Num y => x <? y | _, _ => false end.
Definition le (a b : number) : bool :=
  match a, b with Num x, Num y => x <=? y | _, _ => false end.
Definition gt (a b : number) : bool :=
  match a, b with Num x, Num y => x >? y | _, _ => false end.
Definition ge (a b : number) : bool :=
  match a, b with Num x, Num y => x >=? y | _, _ => false end.

Definition sub (a b : number) : number :=
  match a, b with Num x, Num y => Num (x - y) | _, _ => NaN end.

(** [Math.abs]. *)
Definition abs (a : number) : number :=
  match a with Num x => Num (Z.abs x) | NaN => NaN end.

(** [Math.floor(a / k)] for an integer [a] and a positive integer [k]. *)
Definition floorDiv (a : number) (k : Z) : number :=
  match a with Num x => Num (x / k) | NaN => NaN end.

(** [a % k]: the remainder has the sign of the dividend. *)
Definition rem (a : number) (k : Z) : number :=
  match a with Num x => Num (Z.rem x k) | NaN => NaN end.

Inductive exn : Set := RangeError.

Inductive completion (A : Type) : Type :=
| Normal (a : A)
| Throw (e : exn).
Arguments Normal {A} a.
Arguments Throw {A} e.

Definition bind {A B : Type} (c : completion A) (k : A -> completion B)
  : completion B :=
  match c with
  | Normal a => k a
  | Throw e => Throw e
  end.

(** [Array.prototype.map] with a callback that may throw: the elements are
    visited in order and the first exception ends the traversal. *)
Fixpoint mapM {A B : Type} (f : A -> completion B) (l : list A)
  : completion (list B) :=
  match l with
  | [] => Normal []
  | x :: xs =>
      bind (f x) (fun y => bind (mapM f xs) (fun ys => Normal (y :: ys)))
  end.

End JS.

Notation "x <- c ;; k" := (JS.bind c (fun x => k))
  (at level 61, c at next level, right associativity).

(* ------------------------------------------------------------------ *)
(** ** Dates: ECMAScript [Date] and the date-fns functions in use *)

Module DateFns.
Import JS.

Definition msPerDay : Z := 86400000.

(** Largest time value of a [Date]: 100,000,000 days from the epoch. *)
Definition maxTime : Z := 8640000000000000.

Inductive Date : Set :=
| MkDate (t : Z)
| InvalidDate.

Definition TimeClip (t : Z) : Date :=
  if Z.abs t <=? maxTime then MkDate t else InvalidDate.

(** [Number.isNaN(d.getTime())]. *)
Definition isInvalid (d : Date) : bool :=
  match d with MkDate _ => false | InvalidDate => true end.

(** A date object as the engine can hold it. *)
Definition wfDate (d : Date) : Prop :=
  match d with MkDate t => Z.abs t <= maxTime | InvalidDate => True end.

(** The implicit inputs of a call: the clock read by [new Date()] and the
    offset of local time from UTC, in milliseconds. *)
Record Env : Set := { now : Z; tzOffset : Z }.

(** The part of a date-fns [Duration] that the calculator fills in. *)
Record Duration : Set := { weeks : Z; days : Z }.
Definition ofDays (n : Z) : Duration := {| weeks := 0; days := n |}.
Definition ofWeeks (n : Z) : Duration := {| weeks := n; days := 0 |}.

(** [addDays]: [setDate(getDate() + amount)] keeps the local wall-clock
    time, so it moves the instant by whole days of [msPerDay]. *)
Definition addDays (d : Date) (amount : Z) : Date :=
  match d with
  | MkDate t => TimeClip (t + amount * msPerDay)
  | InvalidDate => InvalidDate
  end.

Definition add (d : Date) (dur : Duration) : Date :=
  addDays d (days dur + weeks dur * 7).

Definition sub (d : Date) (dur : Duration) : Date :=
  addDays d (- (days dur + weeks dur * 7)).

(** [differenceInDays(later, earlier)]: the number of full days between
    the two instants, truncated towards zero; [NaN] on an Invalid Date. *)
Definition differenceInDays (later earlier : Date) : number :=
  match later, earlier with
  | MkDate a, MkDate b => Num (Z.quot (a - b) msPerDay)
  | _, _ => NaN
  end.

(** [a > b] on dates compares the time values; Invalid Date is [NaN]. *)
Definition after (a b : Date) : bool :=
  match a, b with MkDate x, MkDate y => x >? y | _, _ => false end.

(** *** The local calendar *)

(** Day number of an instant in local time (day 0 is 1970-01-01). *)
Definition localDay (env : Env) (t : Z) : Z := (t + tzOffset env) / msPerDay.

Record Civil : Set := { year : Z; month : Z; day : Z }.

(** Split the days since 1 March of year 0 into 400-year, 100-year, 4-year
    and 1-year cycles: the year that starts on 1 March, and the day in it. *)
Definition marchYear (z : Z) : Z * Z :=
  let n400 := z / 146097 in
  let r400 := z mod 146097 in
  let n100 := Z.min (r400 / 36524) 3 in
  let r100 := r400 - n100 * 36524 in
  let n4 := r100 / 1461 in
  let r4 := r100 mod 1461 in
  let n1 := Z.min (r4 / 365) 3 in
  (400 * n400 + 100 * n100 + 4 * n4 + n1, r4 - n1 * 365).

(** Month (1 to 12) and day of the month of a day counted from 1 March. *)
Definition monthDay (doy : Z) : Z * Z :=
  let mp := (5 * doy + 2) / 153 in
  (if mp <? 10 then mp + 3 else mp - 9, doy - (153 * mp + 2) / 5 + 1).

(** Proleptic Gregorian date of a day number. *)
Definition civilOfDay (n : Z) : Civil :=
  let ym := marchYear (n + 719468) in
  let md := monthDay (snd ym) in
  {| year := if fst md <=? 2 then fst ym + 1 else fst ym;
     month := fst md;
     day := snd md |}.

(** *** [format] *)

Definition decimal (n : Z) : string :=
  NilZero.string_of_uint (N.to_uint (Z.to_N n)).

Fixpoint zeros (k : nat) : string :=
  match k with O => EmptyString | S k' => String "0" (zeros k') end.

(** [addLeadingZeros(n, targetLength)]. *)
Definition addLeadingZeros (n : Z) (targetLength : nat) : string :=
  let digits := decimal (Z.abs n) in
  let padded := zeros (targetLength - String.length digits) ++ digits in
  if n <? 0 then "-" ++ padded else padded.

Definition monthAbbreviation (m : Z) : string :=
  match m with
  | 1 => "Jan" | 2 => "Feb" | 3 => "Mar" | 4 => "Apr"
  | 5 => "May" | 6 => "Jun" | 7 => "Jul" | 8 => "Aug"
  | 9 => "Sep" | 10 => "Oct" | 11 => "Nov" | _ => "Dec"
  end.

(** A format string is cut into runs of one repeated letter and single
    other characters. *)
Inductive token : Set :=
| Letters (c : ascii) (count : nat)
| Literal (c : ascii).

Definition isLatinLetter (c : ascii) : bool :=
  let n := nat_of_ascii c in
  ((65 <=? n) && (n <=? 90))%nat || ((97 <=? n) && (n <=? 122))%nat.

Fixpoint tokenize (s : string) : list token :=
  match s with
  | EmptyString => []
  | String c rest =>
      if isLatinLetter c then
        match tokenize rest with
        | Letters c' k :: ts =>
            if Ascii.eqb c c' then Letters c (S k) :: ts
            else Letters c 1 :: Letters c' k :: ts
        | ts => Letters c 1 :: ts
        end
      else Literal c :: tokenize rest
  end.

(** The formatters for the tokens the calculator uses: [y], [M] (numeric
    and abbreviated) and [d].  The year is the year of the era, as in
    date-fns.  Any other letter is refused like an unknown token. *)
Definition formatToken (c : Civil) (tok : token) : completion string :=
  match tok with
  | Literal ch => Normal (String ch EmptyString)
  | Letters ch k =>
      if Ascii.eqb ch "y" then
        let y := if year c >? 0 then year c else 1 - year c in
        Normal (if Nat.eqb k 2 then addLeadingZeros (y mod 100) 2
                else addLeadingZeros y k)
      else if Ascii.eqb ch "M" then
        if Nat.leb k 2 then Normal (addLeadingZeros (month c) k)
        else if Nat.eqb k 3 then Normal (monthAbbreviation (month c))
        else Throw RangeError
      else if Ascii.eqb ch "d" then Normal (addLeadingZeros (day c) k)
      else Throw RangeError
  end.

Fixpoint concat (l : list string) : string :=
  match l with
  | [] => EmptyString
  | s :: rest => s ++ concat rest
  end.

(** [format(date, formatStr)]: throws [RangeError] ("Invalid time value")
    on an Invalid Date. *)
Definition format (env : Env) (d : Date) (formatStr : string)
  : completion string :=
  match d with
  | InvalidDate => Throw RangeError
  | MkDate t =>
      parts <- mapM (formatToken (civilOfDay (localDay env t)))
                    (tokenize formatStr) ;;
      Normal (concat parts)
  end.

End DateFns.

(* ------------------------------------------------------------------ *)
(** ** The calculator *)

Import JS DateFns.

Record Milestone : Set := {
  name : string;
  startWeeks : Z;
  startDays : option Z;
  endWeeks : Z;
  endDays : option Z
}.

Definition pregnancyMilestones : list Milestone := [
  {| name := "Blood Screening";
     startWeeks := 10; startDays := None; endWeeks := 13; endDays := Some 6 |};
  {| name := "First Fetal Heart Tones by Doppler";
     startWeeks := 11; startDays := None; endWeeks := 12; endDays := None |};
  {| name := "NT scan window";
     startWeeks := 11; startDays := Some 2; endWeeks := 14; endDays := Some 2 |};
  {| name := "Anatomy scan window";
     startWeeks := 18; startDays := None; endWeeks := 21; endDays := None |};
  {| name := "Typical anatomy scan";
     startWeeks := 20; startDays := None; endWeeks := 20; endDays := None |};
  {| name := "Glucose screen";
     startWeeks := 24; startDays := None; endWeeks := 28; endDays := None |};
  {| name := "GBS screen";
     startWeeks := 35; startDays := None; endWeeks := 37; endDays := None |};
  {| name := "Tdap vaccination";
     startWeeks := 27; startDays := None; endWeeks := 36; endDays := None |}
].

Inductive Source : Set := LMP | Ultrasound | LMP_CONFIRMED.

Record MilestoneDate : Set := {
  milestoneName : string;
  dateRange : string
}.

Record PregnancyInfo : Set := {
  lmpEdd : Date;
  ultrasoundEdd : Date;
  bestEstimateEdd : Date;
  source : Source;
  gestationalAgeWeeks : number;
  gestationalAgeDays : number;
  conceptionDate : Date;
  trimester : Z;
  firstTrimesterEnd : Date;
  secondTrimesterEnd : Date;
  discrepancyDays : number;
  milestoneDates : list MilestoneDate
}.

(** [switch (true)] with its cases tried in order. *)
Definition getRedatingThreshold (gaWeeks : number) : number :=
  if lt gaWeeks (Num 5) then Num 0
  else if le gaWeeks (Num 8) then Num 5
  else if le gaWeeks (Num 13) then Num 7
  else if le gaWeeks (Num 15) then Num 10
  else if le gaWeeks (Num 21) then Num 14
  else if le gaWeeks (Num 27) then Num 21
  else Num 21.

(** [x || 0] on an optional offset. *)
Definition orZero (x : option Z) : Z :=
  match x with Some v => v | None => 0 end.

(** The callback of [pregnancyMilestones.map], the same arrow function in
    both entry points. *)
Definition milestoneDate (env : Env) (estimatedLmp : Date) (m : Milestone)
  : completion MilestoneDate :=
  let startDate :=
    add estimatedLmp {| weeks := startWeeks m; days := orZero (startDays m) |} in
  let endDate :=
    add estimatedLmp {| weeks := endWeeks m; days := orZero (endDays m) |} in
  startStr <- format env startDate "MMM d" ;;
  endStr <- format env endDate "MMM d, yyyy" ;;
  startKey <- format env startDate "yyyy-MM-dd" ;;
  endKey <- format env endDate "yyyy-MM-dd" ;;
  let isSameDay := String.eqb startKey endKey in
  let dateRange := if isSameDay then endStr else startStr ++ " - " ++ endStr in
  Normal {| milestoneName := name m; dateRange := dateRange |}.

(** [null] is [None]; a [null] or [undefined] argument is [None]. *)
Definition calculatePregnancyFromEdd (env : Env) (edd : option Date)
  : completion (option PregnancyInfo) :=
  match edd with
  | None => Normal None
  | Some InvalidDate => Normal None
  | Some edd =>
      let estimatedLmp := sub edd (ofDays 280) in
      let today := MkDate (now env) in
      let currentGaInDays := differenceInDays today estimatedLmp in
      let currentGaInDays :=
        if lt currentGaInDays (Num 0) then Num 0 else currentGaInDays in
      let gestationalAgeWeeks := floorDiv currentGaInDays 7 in
      let gestationalAgeDays := rem currentGaInDays 7 in
      let firstTrimesterEnd := add estimatedLmp {| weeks := 13; days := 6 |} in
      let secondTrimesterEnd := add estimatedLmp {| weeks := 27; days := 6 |} in
      let trimester :=
        if after today secondTrimesterEnd then 3
        else if after today firstTrimesterEnd then 2
        else 1 in
      milestoneDates <- mapM (milestoneDate env estimatedLmp) pregnancyMilestones ;;
      let conceptionDate := sub edd (ofDays 266) in
      Normal (Some {|
        lmpEdd := edd;
        ultrasoundEdd := edd;
        bestEstimateEdd := edd;
        source := Ultrasound;
        gestationalAgeWeeks := gestationalAgeWeeks;
        gestationalAgeDays := gestationalAgeDays;
        conceptionDate := conceptionDate;
        trimester := trimester;
        firstTrimesterEnd := firstTrimesterEnd;
        secondTrimesterEnd := secondTrimesterEnd;
        discrepancyDays := Num 0;
        milestoneDates := milestoneDates
      |})
  end.

Definition calculatePregnancyInfo (env : Env)
  (lmpDate ultrasoundDate : option Date) (gaWeeks gaDays : option Z)
  : completion (option PregnancyInfo) :=
  match lmpDate with
  | None => Normal None
  | Some InvalidDate => Normal None
  | Some lmpDate =>
      let lmpEdd := add lmpDate (ofDays 280) in
      let '(bestEstimateEdd, ultrasoundEdd, source, discrepancyDays) :=
        match ultrasoundDate, gaWeeks, gaDays with
        | Some ultrasoundDate, Some gaWeeks, Some gaDays =>
            let measuredGaInDays := gaWeeks * 7 + gaDays in
            let ultrasoundEdd :=
              add ultrasoundDate (ofDays (280 - measuredGaInDays)) in
            let lmpBasedGaInDays := differenceInDays ultrasoundDate lmpDate in
            let discrepancyDays :=
              JS.abs (JS.sub lmpBasedGaInDays (Num measuredGaInDays)) in
            let gaWeeksByLmp := floorDiv lmpBasedGaInDays 7 in
            let redatingThreshold := getRedatingThreshold gaWeeksByLmp in
            if ge gaWeeksByLmp (Num 5) && gt discrepancyDays redatingThreshold
            then (ultrasoundEdd, ultrasoundEdd, Ultrasound, discrepancyDays)
            else (lmpEdd, ultrasoundEdd, LMP_CONFIRMED, discrepancyDays)
        | _, _, _ => (lmpEdd, lmpEdd, LMP, Num 0)
        end in
      let estimatedLmp := sub bestEstimateEdd (ofDays 280) in
      let today := MkDate (now env) in
      let currentGaInDays := differenceInDays today estimatedLmp in
      let currentGaInDays :=
        if lt currentGaInDays (Num 0) then Num 0 else currentGaInDays in
      let gestationalAgeWeeks := floorDiv currentGaInDays 7 in
      let gestationalAgeDays := rem currentGaInDays 7 in
      let firstTrimesterEnd := add estimatedLmp {| weeks := 13; days := 6 |} in
      let secondTrimesterEnd := add estimatedLmp {| weeks := 27; days := 6 |} in
      let trimester :=
        if after today secondTrimesterEnd then 3
        else if after today firstTrimesterEnd then 2
        else 1 in
      milestoneDates <- mapM (milestoneDate env estimatedLmp) pregnancyMilestones ;;
      Normal (Some {|
        lmpEdd := lmpEdd;
        ultrasoundEdd := ultrasoundEdd;
        bestEstimateEdd := bestEstimateEdd;
        source := source;
        gestationalAgeWeeks := gestationalAgeWeeks;
        gestationalAgeDays := gestationalAgeDays;
        conceptionDate := add estimatedLmp (ofWeeks 2);
        trimester := trimester;
        firstTrimesterEnd := firstTrimesterEnd;
        secondTrimesterEnd := secondTrimesterEnd;
        discrepancyDays := discrepancyDays;
        milestoneDates := milestoneDates
      |})
  end.

(* ------------------------------------------------------------------ *)
(** ** Source expressions named by the properties

    The values of the local variables of [calculatePregnancyInfo] in its
    ultrasound branch, as functions of the inputs. *)

Definition measuredGaInDays (gaWeeks gaDays : Z) : Z := gaWeeks * 7 + gaDays.

Definition lmpBasedGaInDays (lmpDate ultrasoundDate : Date) : number :=
  differenceInDays ultrasoundDate lmpDate.

Definition gaWeeksByLmp (lmpDate ultrasoundDate : Date) : number :=
  floorDiv (lmpBasedGaInDays lmpDate ultrasoundDate) 7.

Definition discrepancy (lmpDate ultrasoundDate : Date) (gaWeeks gaDays : Z)
  : number :=
  JS.abs (JS.sub (lmpBasedGaInDays lmpDate ultrasoundDate)
                 (Num (measuredGaInDays gaWeeks gaDays))).

(** The test of the [if] that redates. *)
Definition redates (lmpDate ultrasoundDate : Date) (gaWeeks gaDays : Z) : bool :=
  ge (gaWeeksByLmp lmpDate ultrasoundDate) (Num 5)
  && gt (discrepancy lmpDate ultrasoundDate gaWeeks gaDays)
        (getRedatingThreshold (gaWeeksByLmp lmpDate ultrasoundDate)).


(** The due date that [bestEstimateEdd] holds after the redating block. *)
Definition chosenEdd (lmpDate : Date) (ultrasoundDate : option Date)
  (gaWeeks gaDays : option Z) : Date :=
  match ultrasoundDate, gaWeeks, gaDays with
  | Some us, Some w, Some d =>
      if redates lmpDate us w d
      then add us (ofDays (280 - measuredGaInDays w d))
      else add lmpDate (ofDays 280)
  | _, _, _ => add lmpDate (ofDays 280)
  end.

(** A date whose time value exists and lies in the range of [Date]. *)
Definition representable (d : Date) : Prop :=
  exists t, d = MkDate t /\ Z.abs t <= maxTime.

(** Start and end of a milestone window. *)
Definition milestoneStart (estimatedLmp : Date) (m : Milestone) : Date :=
  add estimatedLmp {| weeks := startWeeks m; days := orZero (startDays m) |}.
Definition milestoneEnd (estimatedLmp : Date) (m : Milestone) : Date :=
  add estimatedLmp {| weeks := endWeeks m; days := orZero (endDays m) |}.

(** Whole days from the estimated LMP to the start and end of a window. *)
Definition startOffset (m : Milestone) : Z :=
  orZero (startDays m) + startWeeks m * 7.
Definition endOffset (m : Milestone) : Z :=
  orZero (endDays m) + endWeeks m * 7.

(** The clamped age in days, [currentGaInDays] after the [if]. *)
Definition currentGaInDays (env : Env) (estimatedLmp : Date) : number :=
  let c := differenceInDays (MkDate (now env)) estimatedLmp in
  if lt c (Num 0) then Num 0 else c.

(** The fields both entry points derive from the estimated LMP. *)
Definition derivedFrom (env : Env) (estimatedLmp : Date) (r : PregnancyInfo)
  : Prop :=
  gestationalAgeWeeks r = floorDiv (currentGaInDays env estimatedLmp) 7
  /\ gestationalAgeDays r = rem (currentGaInDays env estimatedLmp) 7
  /\ firstTrimesterEnd r = add estimatedLmp {| weeks := 13; days := 6 |}
  /\ secondTrimesterEnd r = add estimatedLmp {| weeks := 27; days := 6 |}
  /\ trimester r =
       (if after (MkDate (now env)) (secondTrimesterEnd r) then 3
        else if after (MkDate (now env)) (firstTrimesterEnd r) then 2
        else 1)
  /\ mapM (milestoneDate env estimatedLmp) pregnancyMilestones
     = Normal (milestoneDates r).

(** The rendering of a calendar date by the format ["yyyy-MM-dd"]. *)
Definition eraYear (c : Civil) : Z :=
  if year c >? 0 then year c else 1 - year c.
Definition isoDate (c : Civil) : string :=
  concat [addLeadingZeros (eraYear c) 4; "-";
          addLeadingZeros (month c) 2; "-";
          addLeadingZeros (day c) 2].

(** The numbers that a month or a day of the month can be. *)
Definition dayNumbers : list Z :=
  [1; 2; 3; 4; 5; 6; 7; 8; 9; 10; 11; 12; 13; 14; 15; 16; 17; 18; 19; 20;
   21; 22; 23; 24; 25; 26; 27; 28; 29; 30; 31].

(** Two digits, and different digits for different numbers. *)
Definition twoDigitsDistinct : bool :=
  forallb
    (fun k =>
       Nat.eqb (String.length (addLeadingZeros k 2)) 2
       && forallb
            (fun k' =>
               implb (String.eqb (addLeadingZeros k 2) (addLeadingZeros k' 2))
                     (k =? k'))
            dayNumbers)
    dayNumbers.

(** Two instants on the same day of the local calendar. *)
Definition sameLocalDay (env : Env) (a b : Date) : bool :=
  match a, b with
  | MkDate x, MkDate y => localDay env x =? localDay env y
  | _, _ => false
  end.

(** An optional date argument: absent, or a date object. *)
Definition wfArg (d : option Date) : Prop :=
  match d with Some x => wfDate x | None => True end.

(** A record returned by one of the two entry points. *)
Definition isResult (env : Env) (r : PregnancyInfo) : Prop :=
  (exists edd,
      wfArg edd /\ calculatePregnancyFromEdd env edd = Normal (Some r))
  \/ (exists lmpDate ultrasoundDate gaWeeks gaDays,
        wfArg lmpDate /\ wfArg ultrasoundDate /\
        calculatePregnancyInfo env lmpDate ultrasoundDate gaWeeks gaDays
        = Normal (Some r)).

(** The estimated LMP of a record: 280 days before its authoritative EDD. *)
Definition estimatedLmpOf (r : PregnancyInfo) : Date :=
  sub (bestEstimateEdd r) (ofDays 280).

(** The en dash (U+2013) in UTF-8. *)
Definition enDash : string := String "226" (String "128" (String "147" EmptyString)).

(** The entry of the catalog with one offset for start and end. *)
Definition typicalAnatomyScan : Milestone :=
  {| name := "Typical anatomy scan";
     startWeeks := 20; startDays := None; endWeeks := 20; endDays := None |}.

(** *** Sample inputs

    The evaluation instant is 10 June 2024, 06:13:20 UTC, in a zone on UTC;
    the dates are 1 January 2024 and 26 February 2024, at midnight. *)
Definition sampleEnv : Env := {| now := 1718000000000; tzOffset := 0 |}.
Definition jan1_2024 : Date := MkDate 1704067200000.
Definition feb26_2024 : Date := MkDate 1708905600000.

(* ------------------------------------------------------------------ *)
(** ** The calling hook ([src/hooks/use-pregnancy-calculator.ts]) *)

Module Hook.

(** [StrWhiteSpaceChar] within ASCII, which is what a form field holds:
    tab, line feed, vertical tab, form feed, carriage return and space. *)
Definition isWhiteSpace (c : ascii) : bool :=
  match nat_of_ascii c with
  | 9%nat | 10%nat | 11%nat | 12%nat | 13%nat | 32%nat => true
  | _ => false
  end.

Fixpoint trimStart (s : string) : string :=
  match s with
  | EmptyString => EmptyString
  | String c rest => if isWhiteSpace c then trimStart rest else s
  end.

Definition digitOf (c : ascii) : option Z :=
  let n := Z.of_nat (nat_of_ascii c) in
  if (48 <=? n) && (n <=? 57) then Some (n - 48) else None.

(** The longest prefix of decimal digits. *)
Fixpoint leadingDigits (s : string) : list Z :=
  match s with
  | EmptyString => []
  | String c rest =>
      match digitOf c with
      | Some v => v :: leadingDigits rest
      | None => []
      end
  end.

Definition valueOfDigits (ds : list Z) : Z :=
  fold_left (fun acc v => 10 * acc + v) ds 0.

(** [Number.parseInt(s, 10)]: leading white space is skipped, one sign is
    read, then the longest run of digits; without a digit the result is
    [NaN].  What follows the digits is ignored.  The value is the exact
    integer, which is the JavaScript number up to 2^53. *)
Definition parseInt (s : string) : number :=
  let trimmed := trimStart s in
  let sign := match trimmed with String "-" _ => -1 | _ => 1 end in
  let unsigned :=
    match trimmed with
    | String "+" rest => rest
    | String "-" rest => rest
    | _ => trimmed
    end in
  match leadingDigits unsigned with
  | [] => NaN
  | ds => Num (sign * valueOfDigits ds)
  end.


(** [Number.isNaN(parsed) ? undefined : parsed]. *)
Definition orUndefined (parsed : number) : option Z :=
  match parsed with Num z => Some z | NaN => None end.

Inductive CalculationMethod : Set := lmp | ultrasound | reverseUltrasound.

(** The seven [useState] cells. *)
Record State : Set := {
  method : CalculationMethod;
  lmpDate : option Date;
  ultrasoundDate : option Date;
  gaWeeks : string;
  gaDays : string;
  eddDate : option Date;
  pregnancyInfo : option PregnancyInfo
}.


Definition setPregnancyInfo (st : State) (info : option PregnancyInfo) : State :=
  {| method := method st;
     lmpDate := lmpDate st;
     ultrasoundDate := ultrasoundDate st;
     gaWeeks := gaWeeks st;
     gaDays := gaDays st;
     eddDate := eddDate st;
     pregnancyInfo := info |}.

Definition setMethod (st : State) (m : CalculationMethod) : State :=
  {| method := m;
     lmpDate := lmpDate st;
     ultrasoundDate := ultrasoundDate st;
     gaWeeks := gaWeeks st;
     gaDays := gaDays st;
     eddDate := eddDate st;
     pregnancyInfo := pregnancyInfo st |}.



(** The body of [useEffect]: it recomputes [pregnancyInfo] from the other
    cells, and an exception of the calculator leaves the effect. *)
Definition effect (env : Env) (st : State) : completion State :=
  match method st with
  | reverseUltrasound =>
      match eddDate st with
      | Some edd =>
          info <- calculatePregnancyFromEdd env (Some edd) ;;
          Normal (setPregnancyInfo st info)
      | None => Normal (setPregnancyInfo st None)
      end
  | _ =>
      match lmpDate st with
      | Some l =>
          let parsedWeeks := parseInt (gaWeeks st) in
          let weeks := orUndefined parsedWeeks in
          let parsedDays := parseInt (gaDays st) in
          let days := orUndefined parsedDays in
          info <- calculatePregnancyInfo env (Some l) (ultrasoundDate st)
                                         weeks days ;;
          Normal (setPregnancyInfo st info)
      | None => Normal (setPregnancyInfo st None)
      end
  end.


End Hook.

(* ------------------------------------------------------------------ *)
(** ** The input form ([pregnancy-input-form.tsx]): what the pickers refuse *)

Module Form.

(** [new Date('1900-01-01')]: a date-only string is midnight UTC. *)
Definition date1900 : Date := MkDate (-2208988800000).

(** Day number of a calendar date, the inverse of [civilOfDay]. *)
Definition dayOfCivil (y m d : Z) : Z :=
  let y' := if m <=? 2 then y - 1 else y in
  let era := y' / 400 in
  let yoe := y' mod 400 in
  let mp := if m >? 2 then m - 3 else m + 9 in
  let doy := (153 * mp + 2) / 5 + d - 1 in
  let doe := yoe * 365 + yoe / 4 - yoe / 100 + doy in
  era * 146097 + doe - 719468.

(** [new Date(year, monthIndex, date)]: local midnight of that day; a year
    from 0 to 99 stands for 1900 + year. *)
Definition newDate (env : Env) (y monthIndex d : Z) : Date :=
  let fullYear := if (0 <=? y) && (y <=? 99) then 1900 + y else y in
  TimeClip (dayOfCivil fullYear (monthIndex + 1) d * msPerDay - tzOffset env).

(** [new Date().getFullYear()]. *)
Definition currentYear (env : Env) : Z :=
  year (civilOfDay (localDay env (now env))).

(** The [disabled] callbacks of the three date pickers; [a < b] on dates
    is [after b a]. *)
Definition eddDisabled (env : Env) (date : Date) : bool :=
  after date1900 date || after date (newDate env (currentYear env + 2) 11 31).




End Form.

(* ------------------------------------------------------------------ *)
(** ** The composed hook ([use-quick-reference-database.ts])

    The hook returns an object literal with four properties, the spread of
    the results of two other hooks, and one more property.  An object is
    the list of its own properties in insertion order. *)

Module QuickReference.

Definition Obj (V : Type) : Type := list (string * V).

Fixpoint get {V : Type} (o : Obj V) (k : string) : option V :=
  match o with
  | [] => None
  | (k', v) :: rest => if String.eqb k k' then Some v else get rest k
  end.

(** Defining a property: an existing key keeps its place and takes the new
    value, a new key goes last. *)
Fixpoint define {V : Type} (o : Obj V) (k : string) (v : V) : Obj V :=
  match o with
  | [] => [(k, v)]
  | (k', v') :: rest =>
      if String.eqb k k' then (k', v) :: rest
      else (k', v') :: define rest k v
  end.

(** [{ ...o, ...src }]: the properties of [src] are defined in order. *)
Definition spread {V : Type} (o src : Obj V) : Obj V :=
  fold_left (fun acc kv => define acc (fst kv) (snd kv)) src o.

(** The object [useQuickReferenceDatabase] returns, from the values of its
    own properties ([isLoading] is [false] and [error] is [null] in the
    source) and the objects of [useFilteringAndSorting] and
    [useCalculation], two hooks that are not part of these sources. *)
Definition useQuickReferenceDatabase {V : Type}
  (initialMedications initialCategories isLoading error
   validateMedicationCallback : V)
  (filtering calculation : Obj V) : Obj V :=
  let base :=
    define (define (define (define [] "medications" initialMedications)
                           "categories" initialCategories)
                   "isLoading" isLoading)
           "error" error in
  define (spread (spread base filtering) calculation)
         "validateMedication" validateMedicationCallback.

End QuickReference.

(* ------------------------------------------------------------------ *)
(** ** Basic facts *)

(** Linear arithmetic over time values, with the two constants unfolded. *)
Ltac range_arith := unfold msPerDay, maxTime in *; lia.

(** The sample call of the LMP-only method is a result. *)
Ltac sample_lmp_result :=
  right; exists (Some jan1_2024), None, None, None;
  repeat split; simpl; unfold maxTime; lia.

Lemma TimeClip_in_range t :
  Z.abs t <= maxTime -> TimeClip t = MkDate t.
Proof.
  intros H. unfold TimeClip.
  destruct (Z.leb_spec (Z.abs t) maxTime); [reflexivity | lia].
Qed.

Lemma TimeClip_out_of_range t :
  maxTime < Z.abs t -> TimeClip t = InvalidDate.
Proof.
  intros H. unfold TimeClip.
  destruct (Z.leb_spec (Z.abs t) maxTime); [lia | reflexivity].
Qed.

Lemma TimeClip_cases t :
  (Z.abs t <= maxTime /\ TimeClip t = MkDate t)
  \/ (maxTime < Z.abs t /\ TimeClip t = InvalidDate).
Proof.
  destruct (Z_le_gt_dec (Z.abs t) maxTime).
  - left; split; [assumption | now apply TimeClip_in_range].
  - right; split; [lia | apply TimeClip_out_of_range; lia].
Qed.

Lemma addDays_wf d n : wfDate (addDays d n).
Proof.
  destruct d as [t|]; simpl; [|exact I].
  destruct (TimeClip_cases (t + n * msPerDay)) as [[H ->]|[H ->]]; simpl; auto.
Qed.

Lemma not_representable_Invalid d :
  wfDate d -> ~ representable d -> d = InvalidDate.
Proof.
  destruct d as [t|]; simpl; intros Hwf Hn; [|reflexivity].
  exfalso. apply Hn. now exists t.
Qed.

(** The three format strings of the calculator never fail on a valid date. *)
Lemma format_MMM_d env t :
  exists s, format env (MkDate t) "MMM d" = Normal s.
Proof. eexists. reflexivity. Qed.

Lemma format_MMM_d_yyyy env t :
  exists s, format env (MkDate t) "MMM d, yyyy" = Normal s.
Proof. eexists. reflexivity. Qed.

Lemma format_yyyy_MM_dd env t :
  exists s, format env (MkDate t) "yyyy-MM-dd" = Normal s.
Proof. eexists. reflexivity. Qed.


Lemma add_days t n :
  add (MkDate t) (ofDays n) = TimeClip (t + n * msPerDay).
Proof. unfold add, addDays, ofDays. simpl. f_equal. lia. Qed.

Lemma sub_days t n :
  sub (MkDate t) (ofDays n) = TimeClip (t - n * msPerDay).
Proof. unfold sub, addDays, ofDays. simpl. f_equal. lia. Qed.

(** *** Traversals that may throw *)

Lemma mapM_nth {A B} (f : A -> completion B) l ys :
  mapM f l = Normal ys ->
  forall i x, nth_error l i = Some x ->
  exists y, f x = Normal y /\ nth_error ys i = Some y.
Proof.
  revert ys. induction l as [|a l IH]; intros ys H i x Hi.
  - destruct i; discriminate.
  - simpl in H. destruct (f a) as [b|] eqn:Ha; [|discriminate].
    simpl in H. destruct (mapM f l) as [bs|] eqn:Hl; [|discriminate].
    simpl in H. injection H as <-.
    destruct i as [|i]; simpl in *.
    + injection Hi as <-. eauto.
    + eapply IH; eauto.
Qed.

Lemma mapM_length {A B} (f : A -> completion B) l ys :
  mapM f l = Normal ys -> List.length ys = List.length l.
Proof.
  revert ys. induction l as [|a l IH]; intros ys H; simpl in H.
  - injection H as <-. reflexivity.
  - destruct (f a); [|discriminate]. simpl in H.
    destruct (mapM f l); [|discriminate]. simpl in H.
    injection H as <-. simpl. f_equal. now apply IH.
Qed.

Lemma mapM_total {A B} (f : A -> completion B) l :
  (forall x, In x l -> exists y, f x = Normal y) ->
  exists ys, mapM f l = Normal ys.
Proof.
  induction l as [|a l IH]; intros H; simpl.
  - eauto.
  - destruct (H a (or_introl eq_refl)) as [b ->].
    destruct IH as [bs ->]; [intros; apply H; now right|].
    simpl. eauto.
Qed.

Lemma mapM_throws {A B} (f : A -> completion B) l x :
  In x l -> f x = Throw RangeError -> mapM f l = Throw RangeError.
Proof.
  induction l as [|a l IH]; intros Hin Hx; [contradiction|].
  simpl. destruct Hin as [->|Hin].
  - now rewrite Hx.
  - destruct (f a) as [b|[]]; [|reflexivity].
    simpl. now rewrite (IH Hin Hx).
Qed.

(** *** One milestone *)

Lemma milestoneDate_Normal env est m s f :
  milestoneStart est m = MkDate s ->
  milestoneEnd est m = MkDate f ->
  exists startStr endStr startKey endKey,
    format env (MkDate s) "MMM d" = Normal startStr /\
    format env (MkDate f) "MMM d, yyyy" = Normal endStr /\
    format env (MkDate s) "yyyy-MM-dd" = Normal startKey /\
    format env (MkDate f) "yyyy-MM-dd" = Normal endKey /\
    milestoneDate env est m =
      Normal {| milestoneName := name m;
                dateRange := if String.eqb startKey endKey then endStr
                             else startStr ++ " - " ++ endStr |}.
Proof.
  intros Hs Hf.
  destruct (format_MMM_d env s) as [startStr H1].
  destruct (format_MMM_d_yyyy env f) as [endStr H2].
  destruct (format_yyyy_MM_dd env s) as [startKey H3].
  destruct (format_yyyy_MM_dd env f) as [endKey H4].
  exists startStr, endStr, startKey, endKey.
  repeat split; try assumption.
  unfold milestoneDate. fold (milestoneStart est m) (milestoneEnd est m).
  rewrite Hs, Hf, H1, H2, H3, H4. reflexivity.
Qed.

Lemma milestoneDate_Throw env est m :
  milestoneStart est m = InvalidDate \/ milestoneEnd est m = InvalidDate ->
  milestoneDate env est m = Throw RangeError.
Proof.
  intros H. unfold milestoneDate.
  fold (milestoneStart est m) (milestoneEnd est m).
  destruct (milestoneStart est m) as [s|] eqn:Hs.
  - destruct H as [H|H]; [discriminate|]. rewrite H.
    destruct (format_MMM_d env s) as [x ->]. reflexivity.
  - reflexivity.
Qed.

Lemma milestoneDate_inv env est m md :
  milestoneDate env est m = Normal md ->
  exists s f, milestoneStart est m = MkDate s /\ milestoneEnd est m = MkDate f.
Proof.
  intros H.
  destruct (milestoneStart est m) as [s|] eqn:Hs;
    [destruct (milestoneEnd est m) as [f|] eqn:Hf|].
  - eauto.
  - rewrite milestoneDate_Throw in H by (now right). discriminate.
  - rewrite milestoneDate_Throw in H by (now left). discriminate.
Qed.

(** *** The catalog *)

Lemma catalog_offsets m :
  In m pregnancyMilestones ->
  0 <= startOffset m <= 259 /\ 0 <= endOffset m <= 259.
Proof.
  unfold pregnancyMilestones. simpl.
  intros H. repeat (destruct H as [<-|H]; [cbv; repeat split; discriminate|]).
  contradiction.
Qed.

Lemma milestoneStart_MkDate e m :
  milestoneStart (MkDate e) m = TimeClip (e + startOffset m * msPerDay).
Proof. reflexivity. Qed.

Lemma milestoneEnd_MkDate e m :
  milestoneEnd (MkDate e) m = TimeClip (e + endOffset m * msPerDay).
Proof. reflexivity. Qed.

Lemma milestones_Normal env e :
  Z.abs e <= maxTime -> e + 259 * msPerDay <= maxTime ->
  exists ms, mapM (milestoneDate env (MkDate e)) pregnancyMilestones = Normal ms.
Proof.
  intros He Hmax. apply mapM_total. intros m Hm.
  destruct (catalog_offsets m Hm) as [Hs Hf].
  destruct (milestoneDate_Normal env (MkDate e) m
              (e + startOffset m * msPerDay) (e + endOffset m * msPerDay))
    as (a & b & c & d & _ & _ & _ & _ & ->).
  - rewrite milestoneStart_MkDate. apply TimeClip_in_range.
    range_arith.
  - rewrite milestoneEnd_MkDate. apply TimeClip_in_range.
    range_arith.
  - eauto.
Qed.

Lemma milestones_Invalid env :
  mapM (milestoneDate env InvalidDate) pregnancyMilestones = Throw RangeError.
Proof. reflexivity. Qed.

(** The milestones are rendered exactly when the estimated LMP, 280 days
    before a due date the engine holds, is itself a date. *)
Lemma milestones_outcome env best :
  wfDate best ->
  (representable (sub best (ofDays 280)) ->
   exists ms, mapM (milestoneDate env (sub best (ofDays 280)))
                   pregnancyMilestones = Normal ms)
  /\ (~ representable (sub best (ofDays 280)) ->
      mapM (milestoneDate env (sub best (ofDays 280))) pregnancyMilestones
      = Throw RangeError).
Proof.
  intros Hwf. split.
  - intros (e & He & Hr). rewrite He.
    apply milestones_Normal; [assumption|].
    destruct best as [b|]; [|discriminate].
    simpl in Hwf. rewrite sub_days in He.
    destruct (TimeClip_cases (b - 280 * msPerDay)) as [[_ E]|[_ E]];
      rewrite E in He; [|discriminate].
    injection He as <-. range_arith.
  - intros Hn.
    assert (E : sub best (ofDays 280) = InvalidDate)
      by (apply not_representable_Invalid; [apply addDays_wf | exact Hn]).
    rewrite E.
    apply milestones_Invalid.
Qed.

(** *** The two entry points *)

Lemma calculatePregnancyFromEdd_shape env t :
  exists mk : list MilestoneDate -> PregnancyInfo,
    calculatePregnancyFromEdd env (Some (MkDate t)) =
      (ms <- mapM (milestoneDate env (sub (MkDate t) (ofDays 280)))
                  pregnancyMilestones ;;
       Normal (Some (mk ms))).
Proof. eexists (fun ms => _). unfold calculatePregnancyFromEdd. reflexivity. Qed.

Lemma calculatePregnancyInfo_shape env l us w d :
  exists mk : list MilestoneDate -> PregnancyInfo,
    calculatePregnancyInfo env (Some (MkDate l)) us w d =
      (ms <- mapM (milestoneDate env
                     (sub (chosenEdd (MkDate l) us w d) (ofDays 280)))
                  pregnancyMilestones ;;
       Normal (Some (mk ms))).
Proof.
  unfold calculatePregnancyInfo, chosenEdd.
  destruct us as [u|], w as [w|], d as [d|];
    try (eexists (fun ms => _); reflexivity).
  fold (measuredGaInDays w d).
  fold (lmpBasedGaInDays (MkDate l) u).
  fold (gaWeeksByLmp (MkDate l) u).
  fold (discrepancy (MkDate l) u w d).
  fold (redates (MkDate l) u w d).
  destruct (redates (MkDate l) u w d);
    eexists (fun ms => _); reflexivity.
Qed.

Lemma chosenEdd_wf lmp us w d : wfDate (chosenEdd lmp us w d).
Proof.
  unfold chosenEdd.
  destruct us, w, d; try apply addDays_wf.
  destruct (redates _ _ _ _); apply addDays_wf.
Qed.

Lemma calculatePregnancyFromEdd_inv env t r :
  calculatePregnancyFromEdd env (Some (MkDate t)) = Normal (Some r) ->
  lmpEdd r = MkDate t /\ ultrasoundEdd r = MkDate t
  /\ bestEstimateEdd r = MkDate t /\ source r = Ultrasound
  /\ discrepancyDays r = Num 0
  /\ conceptionDate r = sub (MkDate t) (ofDays 266)
  /\ derivedFrom env (sub (MkDate t) (ofDays 280)) r.
Proof.
  unfold calculatePregnancyFromEdd.
  destruct (mapM _ pregnancyMilestones) as [ms|] eqn:Hms; [|discriminate].
  intros H. injection H as <-. unfold derivedFrom. simpl.
  repeat split; assumption.
Qed.

Lemma calculatePregnancyInfo_inv env l us w d r :
  calculatePregnancyInfo env (Some (MkDate l)) us w d = Normal (Some r) ->
  lmpEdd r = add (MkDate l) (ofDays 280)
  /\ bestEstimateEdd r = chosenEdd (MkDate l) us w d
  /\ conceptionDate r = add (sub (bestEstimateEdd r) (ofDays 280)) (ofWeeks 2)
  /\ derivedFrom env (sub (bestEstimateEdd r) (ofDays 280)) r
  /\ match us, w, d with
     | Some u, Some w, Some d =>
         ultrasoundEdd r = add u (ofDays (280 - measuredGaInDays w d))
         /\ source r = (if redates (MkDate l) u w d
                        then Ultrasound else LMP_CONFIRMED)
         /\ discrepancyDays r = discrepancy (MkDate l) u w d
     | _, _, _ =>
         ultrasoundEdd r = lmpEdd r /\ source r = LMP
         /\ discrepancyDays r = Num 0
     end.
Proof.
  unfold calculatePregnancyInfo, chosenEdd.
  destruct us as [u|], w as [w|], d as [d|];
    try (destruct (mapM _ pregnancyMilestones) as [ms|] eqn:Hms;
         [|discriminate];
         intros H; injection H as <-; unfold derivedFrom; simpl;
         repeat split; assumption).
  fold (measuredGaInDays w d).
  fold (lmpBasedGaInDays (MkDate l) u).
  fold (gaWeeksByLmp (MkDate l) u).
  fold (discrepancy (MkDate l) u w d).
  fold (redates (MkDate l) u w d).
  destruct (redates (MkDate l) u w d);
    (destruct (mapM _ pregnancyMilestones) as [ms|] eqn:Hms;
     [|discriminate];
     intros H; injection H as <-; unfold derivedFrom; simpl;
     repeat split; assumption).
Qed.

(** When each entry point returns a record, and when it throws. *)
Lemma calculatePregnancyFromEdd_outcome env t :
  Z.abs t <= maxTime ->
  (representable (sub (MkDate t) (ofDays 280)) ->
   exists r, calculatePregnancyFromEdd env (Some (MkDate t)) = Normal (Some r))
  /\ (~ representable (sub (MkDate t) (ofDays 280)) ->
      calculatePregnancyFromEdd env (Some (MkDate t)) = Throw RangeError).
Proof.
  intros Hwf.
  destruct (calculatePregnancyFromEdd_shape env t) as [mk ->].
  destruct (milestones_outcome env (MkDate t) Hwf) as [Hok Hbad].
  split; intros H.
  - destruct (Hok H) as [ms ->]. simpl. eauto.
  - rewrite (Hbad H). reflexivity.
Qed.

Lemma calculatePregnancyInfo_outcome env l us w d :
  (representable (sub (chosenEdd (MkDate l) us w d) (ofDays 280)) ->
   exists r, calculatePregnancyInfo env (Some (MkDate l)) us w d
             = Normal (Some r))
  /\ (~ representable (sub (chosenEdd (MkDate l) us w d) (ofDays 280)) ->
      calculatePregnancyInfo env (Some (MkDate l)) us w d = Throw RangeError).
Proof.
  destruct (calculatePregnancyInfo_shape env l us w d) as [mk ->].
  destruct (milestones_outcome env (chosenEdd (MkDate l) us w d)
              (chosenEdd_wf _ _ _ _)) as [Hok Hbad].
  split; intros H.
  - destruct (Hok H) as [ms ->]. simpl. eauto.
  - rewrite (Hbad H). reflexivity.
Qed.

(** *** Records and their estimated LMP *)

(** Going 280 days forward and back returns to a valid starting date. *)
Lemma sub_add_280 l :
  Z.abs l <= maxTime ->
  representable (add (MkDate l) (ofDays 280)) ->
  add (MkDate l) (ofDays 280) = MkDate (l + 280 * msPerDay)
  /\ sub (add (MkDate l) (ofDays 280)) (ofDays 280) = MkDate l.
Proof.
  intros Hl (b & Hb & _). rewrite add_days in *.
  destruct (TimeClip_cases (l + 280 * msPerDay)) as [[_ E]|[_ E]];
    rewrite E in *; [|discriminate].
  split; [reflexivity|]. rewrite sub_days.
  transitivity (TimeClip l); [f_equal; lia | now apply TimeClip_in_range].
Qed.


Lemma isResult_derived env r :
  isResult env r -> derivedFrom env (estimatedLmpOf r) r.
Proof.
  unfold estimatedLmpOf.
  intros [(edd & _ & H)|(lmp & us & w & d & _ & _ & H)].
  - destruct edd as [[t|]|]; try discriminate.
    destruct (calculatePregnancyFromEdd_inv env t r H)
      as (_ & _ & -> & _ & _ & _ & Hd).
    exact Hd.
  - destruct lmp as [[l|]|]; try discriminate.
    destruct (calculatePregnancyInfo_inv env l us w d r H)
      as (_ & _ & _ & Hd & _).
    exact Hd.
Qed.

Lemma isResult_wf env r : isResult env r -> wfDate (bestEstimateEdd r).
Proof.
  intros [(edd & Hwf & H)|(lmp & us & w & d & _ & _ & H)].
  - destruct edd as [[t|]|]; try discriminate.
    destruct (calculatePregnancyFromEdd_inv env t r H)
      as (_ & _ & -> & _). exact Hwf.
  - destruct lmp as [[l|]|]; try discriminate.
    destruct (calculatePregnancyInfo_inv env l us w d r H)
      as (_ & -> & _). apply chosenEdd_wf.
Qed.

(** In a record the estimated LMP is a date, and so is every date up to
    280 days after it. *)
Lemma isResult_estimatedLmp env r :
  isResult env r ->
  exists e, estimatedLmpOf r = MkDate e
            /\ bestEstimateEdd r = MkDate (e + 280 * msPerDay)
            /\ - maxTime <= e /\ e + 280 * msPerDay <= maxTime.
Proof.
  intros Hr.
  pose proof (isResult_wf env r Hr) as Hwf.
  destruct (isResult_derived env r Hr) as (_ & _ & _ & _ & _ & Hms).
  unfold estimatedLmpOf in *.
  destruct (bestEstimateEdd r) as [b|]; [|discriminate].
  simpl in Hwf. rewrite sub_days in *.
  destruct (TimeClip_cases (b - 280 * msPerDay)) as [[Hb E]|[_ E]];
    rewrite E in *; [|discriminate].
  exists (b - 280 * msPerDay).
  repeat split; try (f_equal; lia); range_arith.
Qed.


(* ------------------------------------------------------------------ *)
(** ** The redating threshold *)

(** Claim C2.  On every non-negative integer number of completed weeks the
    threshold lookup returns the guideline band: 0 days below 5 weeks, 5 days
    for weeks 5 to 8, 7 days for weeks 9 to 13, 10 days for weeks 14 and 15,
    14 days for weeks 16 to 21, 21 days for weeks 22 to 27 and 21 days from
    week 28 on.  It is a total function: the result is always a number of
    days, never an error and never [NaN]. *)
Theorem getRedatingThreshold_bands (w : Z) :
  0 <= w ->
  (exists k, getRedatingThreshold (Num w) = Num k)
  /\ (w < 5 -> getRedatingThreshold (Num w) = Num 0)
  /\ (5 <= w <= 8 -> getRedatingThreshold (Num w) = Num 5)
  /\ (9 <= w <= 13 -> getRedatingThreshold (Num w) = Num 7)
  /\ (14 <= w <= 15 -> getRedatingThreshold (Num w) = Num 10)
  /\ (16 <= w <= 21 -> getRedatingThreshold (Num w) = Num 14)
  /\ (22 <= w <= 27 -> getRedatingThreshold (Num w) = Num 21)
  /\ (28 <= w -> getRedatingThreshold (Num w) = Num 21).
Proof.
  intros Hw. unfold getRedatingThreshold, lt, le.
  destruct (Z.ltb_spec w 5); [repeat split; eauto; intros; lia|].
  destruct (Z.leb_spec w 8); [repeat split; eauto; intros; lia|].
  destruct (Z.leb_spec w 13); [repeat split; eauto; intros; lia|].
  destruct (Z.leb_spec w 15); [repeat split; eauto; intros; lia|].
  destruct (Z.leb_spec w 21); [repeat split; eauto; intros; lia|].
  destruct (Z.leb_spec w 27); repeat split; eauto; intros; lia.
Qed.

Lemma getRedatingThreshold_bands_witness :
  0 <= 9 /\ getRedatingThreshold (Num 9) = Num 7
  /\ getRedatingThreshold (Num 28) = Num 21.
Proof.
  split; [lia|]. split.
  - apply (getRedatingThreshold_bands 9); lia.
  - apply (getRedatingThreshold_bands 28); lia.
Defined.

(* ------------------------------------------------------------------ *)
(** ** Gestational age and trimester *)





(* ------------------------------------------------------------------ *)
(** ** The redating decision *)

Lemma gt_le_trans a b c : le a b = true -> gt a c = true -> gt b c = true.
Proof.
  destruct a, b, c; simpl; try discriminate.
  rewrite Z.leb_le, !Z.gtb_ltb, !Z.ltb_lt. lia.
Qed.

Lemma lt_not_ge a k : lt a (Num k) = true -> ge a (Num k) = false.
Proof.
  destruct a; simpl; [|discriminate].
  rewrite Z.ltb_lt, Z.geb_leb, Z.leb_gt. lia.
Qed.

(** Claim C1.  With a valid LMP date and the three ultrasound fields
    present, a returned record has [source = Ultrasound] and
    [bestEstimateEdd = ultrasoundEdd] exactly when the LMP-based age in
    completed weeks, [floor(differenceInDays(ultrasoundDate, lmpDate) / 7)],
    is at least 5 and [discrepancyDays] is strictly above the threshold of
    that week; in every other case it has [source = LMP_CONFIRMED] and
    [bestEstimateEdd = lmpEdd].  So below 5 weeks the source is never
    [Ultrasound], and for fixed dates a larger discrepancy keeps an
    [Ultrasound] verdict: the source moves from [LMP_CONFIRMED] to
    [Ultrasound] as the discrepancy grows, never back.  A record is
    returned as soon as the estimated LMP, 280 days before the due date
    chosen, is a date. *)
Theorem redating_decision env l u w d :
  let weeksByLmp := floorDiv (differenceInDays u (MkDate l)) 7 in
  let threshold := getRedatingThreshold weeksByLmp in
  (forall r,
      calculatePregnancyInfo env (Some (MkDate l)) (Some u) (Some w) (Some d)
      = Normal (Some r) ->
      discrepancyDays r
      = JS.abs (JS.sub (differenceInDays u (MkDate l)) (Num (w * 7 + d)))
      /\ ((source r = Ultrasound /\ bestEstimateEdd r = ultrasoundEdd r)
          <-> (ge weeksByLmp (Num 5) = true
               /\ gt (discrepancyDays r) threshold = true))
      /\ (~ (ge weeksByLmp (Num 5) = true
             /\ gt (discrepancyDays r) threshold = true) ->
          source r = LMP_CONFIRMED /\ bestEstimateEdd r = lmpEdd r)
      /\ (lt weeksByLmp (Num 5) = true -> source r <> Ultrasound)
      /\ (forall env' w' d' r',
            calculatePregnancyInfo env' (Some (MkDate l)) (Some u)
                                   (Some w') (Some d') = Normal (Some r') ->
            le (discrepancyDays r) (discrepancyDays r') = true ->
            (source r = Ultrasound -> source r' = Ultrasound)
            /\ (source r' = LMP_CONFIRMED -> source r = LMP_CONFIRMED)))
  /\ (representable
        (sub (chosenEdd (MkDate l) (Some u) (Some w) (Some d)) (ofDays 280)) ->
      exists r,
        calculatePregnancyInfo env (Some (MkDate l)) (Some u) (Some w) (Some d)
        = Normal (Some r)).
Proof.
  cbv zeta. split; [|apply calculatePregnancyInfo_outcome].
  intros r H.
  destruct (calculatePregnancyInfo_inv _ _ _ _ _ _ H)
    as (Hl & Hb & _ & _ & Hu & Hs & Hd).
  change (floorDiv (differenceInDays u (MkDate l)) 7)
    with (gaWeeksByLmp (MkDate l) u).
  assert (Hred : redates (MkDate l) u w d = true <->
                 ge (gaWeeksByLmp (MkDate l) u) (Num 5) = true
                 /\ gt (discrepancyDays r)
                       (getRedatingThreshold (gaWeeksByLmp (MkDate l) u))
                    = true).
  { rewrite Hd. unfold redates. apply andb_true_iff. }
  unfold chosenEdd in Hb.
  split; [exact Hd|].
  split; [|split; [|split]].
  - rewrite <- Hred. destruct (redates (MkDate l) u w d).
    + rewrite Hs, Hb, Hu. tauto.
    + rewrite Hs. split; [intros [? _]|]; discriminate.
  - rewrite <- Hred. destruct (redates (MkDate l) u w d).
    + intros C. now contradiction C.
    + intros _. rewrite Hs, Hb, Hl. tauto.
  - intros Hlt Hsrc. apply lt_not_ge in Hlt.
    assert (E : redates (MkDate l) u w d = true).
    { destruct (redates (MkDate l) u w d);
        [reflexivity | rewrite Hs in Hsrc; discriminate]. }
    apply Hred in E. destruct E as [E _]. congruence.
  - intros env' w' d' r' H' Hle.
    destruct (calculatePregnancyInfo_inv _ _ _ _ _ _ H')
      as (_ & _ & _ & _ & _ & Hs' & Hd').
    assert (Hred' : redates (MkDate l) u w' d' = true <->
                 ge (gaWeeksByLmp (MkDate l) u) (Num 5) = true
                 /\ gt (discrepancyDays r')
                       (getRedatingThreshold (gaWeeksByLmp (MkDate l) u))
                    = true).
    { rewrite Hd'. unfold redates. apply andb_true_iff. }
    assert (Himp : redates (MkDate l) u w d = true ->
                   redates (MkDate l) u w' d' = true).
    { rewrite Hred, Hred'. intros [G T]. split; [exact G|].
      eapply gt_le_trans; eassumption. }
    rewrite Hs, Hs'.
    destruct (redates (MkDate l) u w d), (redates (MkDate l) u w' d');
      split; intros; try reflexivity; try discriminate.
    + specialize (Himp eq_refl). discriminate.
    + specialize (Himp eq_refl). discriminate.
Qed.

(** Scenario 2 of the specification redates (56 days by LMP, 63 measured);
    scenario 3 does not (58 measured). *)
Lemma redating_decision_witness :
  exists r2 r3,
    calculatePregnancyInfo sampleEnv (Some jan1_2024) (Some feb26_2024)
                           (Some 9) (Some 0) = Normal (Some r2)
    /\ calculatePregnancyInfo sampleEnv (Some jan1_2024) (Some feb26_2024)
                              (Some 8) (Some 2) = Normal (Some r3)
    /\ discrepancyDays r2 = Num 7 /\ discrepancyDays r3 = Num 2
    /\ (source r2 = Ultrasound /\ bestEstimateEdd r2 = ultrasoundEdd r2)
    /\ (source r3 = LMP_CONFIRMED /\ bestEstimateEdd r3 = lmpEdd r3).
Proof.
  eexists. eexists.
  split; [vm_compute; reflexivity|]. split; [vm_compute; reflexivity|].
  match goal with
  | |- discrepancyDays ?r2 = _ /\ discrepancyDays ?r3 = _ /\ _ =>
      pose proof (proj1 (redating_decision sampleEnv 1704067200000
                           feb26_2024 9 0) r2 eq_refl) as H2;
      pose proof (proj1 (redating_decision sampleEnv 1704067200000
                           feb26_2024 8 2) r3 eq_refl) as H3
  end.
  cbv zeta in H2, H3.
  destruct H2 as (D2 & I2 & _). destruct H3 as (D3 & _ & N3 & _).
  split; [exact D2|]. split; [exact D3|]. split.
  - apply I2. split; reflexivity.
  - apply N3. intros [_ C]. discriminate C.
Defined.

(** Claim C10.  When the three ultrasound fields are present and the
    ultrasound date is strictly before a valid LMP date, the redating test
    fails: the LMP-based age in completed weeks is at most 0, below the
    5-week guard.  So every returned record has [source = LMP_CONFIRMED]
    and [bestEstimateEdd = lmpEdd], whatever the measured age; and a record
    is returned as soon as the LMP-based due date is a date. *)
Theorem scan_before_lmp_never_redates env l u w d :
  Z.abs l <= maxTime -> u < l ->
  (exists k, gaWeeksByLmp (MkDate l) (MkDate u) = Num k /\ k <= 0)
  /\ redates (MkDate l) (MkDate u) w d = false
  /\ (forall r,
        calculatePregnancyInfo env (Some (MkDate l)) (Some (MkDate u))
                               (Some w) (Some d) = Normal (Some r) ->
        source r = LMP_CONFIRMED /\ bestEstimateEdd r = lmpEdd r)
  /\ (representable (add (MkDate l) (ofDays 280)) ->
      exists r,
        calculatePregnancyInfo env (Some (MkDate l)) (Some (MkDate u))
                               (Some w) (Some d) = Normal (Some r)).
Proof.
  intros Hl Hlt.
  assert (Hk : Z.quot (u - l) msPerDay / 7 <= 0).
  { assert (Z.quot (u - l) msPerDay <= 0)
      by (apply Z.quot_le_upper_bound; unfold msPerDay; lia).
    apply Z.div_le_upper_bound; lia. }
  assert (Hred : redates (MkDate l) (MkDate u) w d = false).
  { unfold redates, gaWeeksByLmp, lmpBasedGaInDays. simpl.
    apply andb_false_iff. left. rewrite Z.geb_leb. apply Z.leb_gt. lia. }
  split; [eexists; split; [reflexivity | exact Hk]|].
  split; [exact Hred|]. split.
  - intros r H.
    destruct (calculatePregnancyInfo_inv _ _ _ _ _ _ H)
      as (Hle & Hb & _ & _ & _ & Hs & _).
    unfold chosenEdd in Hb. rewrite Hred in Hs, Hb.
    split; [exact Hs | now rewrite Hb, Hle].
  - intros Hr.
    apply calculatePregnancyInfo_outcome.
    unfold chosenEdd. rewrite Hred.
    destruct (sub_add_280 l Hl Hr) as [_ ->]. now exists l.
Qed.

(** A scan dated 1 January against an LMP of 26 February, measuring
    12 weeks: the LMP is kept. *)
Lemma scan_before_lmp_never_redates_witness :
  exists r,
    calculatePregnancyInfo sampleEnv (Some feb26_2024) (Some jan1_2024)
                           (Some 12) (Some 0) = Normal (Some r)
    /\ source r = LMP_CONFIRMED /\ bestEstimateEdd r = lmpEdd r.
Proof.
  eexists. split; [vm_compute; reflexivity|].
  apply (scan_before_lmp_never_redates sampleEnv
           1708905600000 1704067200000 12 0).
  - unfold maxTime. lia.
  - lia.
  - reflexivity.
Defined.

(* ------------------------------------------------------------------ *)
(** ** LMP alone, and the reverse method *)









(* ------------------------------------------------------------------ *)
(** ** Absent results and exceptions *)

Lemma calculatePregnancyFromEdd_null env edd :
  calculatePregnancyFromEdd env edd = Normal None
  <-> edd = None \/ edd = Some InvalidDate.
Proof.
  split.
  - destruct edd as [[t|]|]; auto.
    destruct (calculatePregnancyFromEdd_shape env t) as [mk ->].
    destruct (mapM _ pregnancyMilestones); discriminate.
  - intros [->| ->]; reflexivity.
Qed.

Lemma calculatePregnancyInfo_null env lmp us w d :
  calculatePregnancyInfo env lmp us w d = Normal None
  <-> lmp = None \/ lmp = Some InvalidDate.
Proof.
  split.
  - destruct lmp as [[l|]|]; auto.
    destruct (calculatePregnancyInfo_shape env l us w d) as [mk ->].
    destruct (mapM _ pregnancyMilestones); discriminate.
  - intros [->| ->]; reflexivity.
Qed.

(** Claim C8 as stated fails: with a valid LMP date, a scan 8 weeks later
    and a measured age of 20,000,000 weeks, the ultrasound due date falls
    out of the range of [Date]; it is chosen, and formatting the first
    milestone throws.  So does the reverse method on the earliest date. *)
Lemma oversized_scan_age_throws :
  isInvalid jan1_2024 = false
  /\ calculatePregnancyInfo sampleEnv (Some jan1_2024) (Some feb26_2024)
                            (Some 20000000) (Some 0) = Throw RangeError
  /\ isInvalid (MkDate (- maxTime)) = false
  /\ calculatePregnancyFromEdd sampleEnv (Some (MkDate (- maxTime)))
     = Throw RangeError.
Proof. repeat split. Qed.

(** Claim C8, amended.  [calculatePregnancyFromEdd] returns [null] exactly
    when its date is [null], [undefined] or invalid, and so does
    [calculatePregnancyInfo] for the LMP date.  For a valid primary date
    each returns a complete record exactly when the estimated LMP, 280 days
    before the due date it takes as authoritative, is a date within the
    range of [Date]; otherwise the call throws the [RangeError] of date
    formatting. *)
Theorem null_record_or_throw env :
  (forall edd,
      (calculatePregnancyFromEdd env edd = Normal None
       <-> edd = None \/ edd = Some InvalidDate)
      /\ forall t,
          edd = Some (MkDate t) -> Z.abs t <= maxTime ->
          (representable (sub (MkDate t) (ofDays 280)) ->
           exists r, calculatePregnancyFromEdd env edd = Normal (Some r))
          /\ (~ representable (sub (MkDate t) (ofDays 280)) ->
              calculatePregnancyFromEdd env edd = Throw RangeError))
  /\ (forall lmp us w d,
      (calculatePregnancyInfo env lmp us w d = Normal None
       <-> lmp = None \/ lmp = Some InvalidDate)
      /\ forall l,
          lmp = Some (MkDate l) ->
          (representable (sub (chosenEdd (MkDate l) us w d) (ofDays 280)) ->
           exists r, calculatePregnancyInfo env lmp us w d = Normal (Some r))
          /\ (~ representable
                  (sub (chosenEdd (MkDate l) us w d) (ofDays 280)) ->
              calculatePregnancyInfo env lmp us w d = Throw RangeError)).
Proof.
  split.
  - intros edd. split; [apply calculatePregnancyFromEdd_null|].
    intros t -> Ht. now apply calculatePregnancyFromEdd_outcome.
  - intros lmp us w d. split; [apply calculatePregnancyInfo_null|].
    intros l ->. apply calculatePregnancyInfo_outcome.
Qed.

Lemma null_record_or_throw_witness :
  (exists r,
      calculatePregnancyFromEdd sampleEnv (Some (MkDate 1749945600000))
      = Normal (Some r))
  /\ calculatePregnancyFromEdd sampleEnv (Some (MkDate (- maxTime)))
     = Throw RangeError.
Proof.
  destruct (null_record_or_throw sampleEnv) as [H _].
  split.
  - destruct (H (Some (MkDate 1749945600000))) as [_ H'].
    apply (H' 1749945600000 eq_refl); [unfold maxTime; lia|].
    eexists. split; [reflexivity | unfold maxTime; simpl; lia].
  - destruct (H (Some (MkDate (- maxTime)))) as [_ H'].
    apply (H' (- maxTime) eq_refl); [unfold maxTime; lia|].
    intros (t & Ht & _). discriminate Ht.
Defined.

(* ------------------------------------------------------------------ *)
(** ** The calendar *)

Lemma marchYear_digits z :
  exists a b c e,
    z = 146097 * a + 36524 * b + 1461 * c + 365 * e + snd (marchYear z)
    /\ 0 <= b <= 3 /\ 0 <= c <= 24 /\ 0 <= e <= 3
    /\ 0 <= snd (marchYear z) <= 365.
Proof.
  cbv beta zeta iota delta [marchYear snd].
  exists (z / 146097), (Z.min (z mod 146097 / 36524) 3).
  set (r400 := z mod 146097).
  set (n100 := Z.min (r400 / 36524) 3).
  set (r100 := r400 - n100 * 36524).
  exists (r100 / 1461), (Z.min (r100 mod 1461 / 365) 3).
  assert (H400 : 0 <= r400 < 146097) by (apply Z.mod_pos_bound; lia).
  assert (Hz : z = 146097 * (z / 146097) + r400) by (apply Z.div_mod; lia).
  assert (Hn100 : 0 <= n100 <= 3 /\ 0 <= r100 <= 36524).
  { unfold r100, n100.
    pose proof (Z.div_mod r400 36524 ltac:(lia)).
    pose proof (Z.mod_pos_bound r400 36524 ltac:(lia)).
    assert (0 <= r400 / 36524 <= 4).
    { split; [apply Z.div_pos; lia|]. apply Z.div_le_upper_bound; lia. }
    lia. }
  assert (H4 : 0 <= r100 mod 1461 < 1461) by (apply Z.mod_pos_bound; lia).
  assert (Hr : r100 = 1461 * (r100 / 1461) + r100 mod 1461)
    by (apply Z.div_mod; lia).
  assert (Hc : 0 <= r100 / 1461 <= 24).
  { split; [apply Z.div_pos; lia|].
    assert (r100 / 1461 < 25) by (apply Z.div_lt_upper_bound; lia). lia. }
  set (r4 := r100 mod 1461) in *.
  assert (0 <= r4 / 365 <= 4).
  { split; [apply Z.div_pos; lia|]. apply Z.div_le_upper_bound; lia. }
  pose proof (Z.div_mod r4 365 ltac:(lia)).
  pose proof (Z.mod_pos_bound r4 365 ltac:(lia)).
  repeat split; try lia.
Qed.

(** Two days at most 63 days apart are different days of the year: a year
    has at least 365 days. *)
Lemma marchYear_distinct z g :
  1 <= g <= 63 -> snd (marchYear z) <> snd (marchYear (z + g)).
Proof.
  intros Hg E.
  destruct (marchYear_digits z) as (a & b & c & e & Hz & Hb & Hc & He & Hd).
  destruct (marchYear_digits (z + g))
    as (a' & b' & c' & e' & Hz' & Hb' & Hc' & He' & Hd').
  rewrite <- E in *. clear E Hd'.
  assert (a' = a) by lia. subst a'.
  assert (b' = b) by lia. subst b'.
  assert (c' = c) by lia. subst c'.
  lia.
Qed.

Lemma monthDay_range doy :
  0 <= doy <= 365 ->
  1 <= fst (monthDay doy) <= 12 /\ 1 <= snd (monthDay doy) <= 31.
Proof.
  intros H. cbv beta zeta iota delta [monthDay fst snd].
  destruct (Z.ltb_spec ((5 * doy + 2) / 153) 10); cbv iota;
    Z.div_mod_to_equations; lia.
Qed.

Lemma monthDay_inj x y :
  0 <= x <= 365 -> 0 <= y <= 365 -> monthDay x = monthDay y -> x = y.
Proof.
  intros Hx Hy H.
  pose proof (f_equal fst H) as Hm. pose proof (f_equal snd H) as Hd.
  cbv beta zeta iota delta [monthDay fst snd] in Hm, Hd. clear H.
  assert (Hp : (5 * x + 2) / 153 = (5 * y + 2) / 153).
  { revert Hm. clear Hd.
    destruct (Z.ltb_spec ((5 * x + 2) / 153) 10),
             (Z.ltb_spec ((5 * y + 2) / 153) 10);
      intros Hm; Z.div_mod_to_equations; lia. }
  rewrite Hp in Hd. lia.
Qed.

Lemma civilOfDay_range n :
  1 <= month (civilOfDay n) <= 12 /\ 1 <= day (civilOfDay n) <= 31.
Proof.
  destruct (marchYear_digits (n + 719468)) as (_ & _ & _ & _ & _ & _ & _ & _ & H).
  exact (monthDay_range _ H).
Qed.

(** Days at most 63 days apart differ in the month or the day of the month. *)
Lemma civilOfDay_distinct n g :
  1 <= g <= 63 ->
  (month (civilOfDay n), day (civilOfDay n))
  <> (month (civilOfDay (n + g)), day (civilOfDay (n + g))).
Proof.
  intros Hg E.
  destruct (marchYear_digits (n + 719468))
    as (_ & _ & _ & _ & _ & _ & _ & _ & H1).
  destruct (marchYear_digits (n + g + 719468))
    as (_ & _ & _ & _ & _ & _ & _ & _ & H2).
  apply (marchYear_distinct (n + 719468) g Hg).
  replace (n + 719468 + g) with (n + g + 719468) by lia.
  apply monthDay_inj; [exact H1 | exact H2 | exact E].
Qed.

(** *** Strings *)

Lemma length_append s t :
  String.length (s ++ t) = (String.length s + String.length t)%nat.
Proof. induction s as [|c s IH]; simpl; [reflexivity | now rewrite IH]. Qed.

Lemma append_inj s1 s2 t1 t2 :
  String.length t1 = String.length t2 ->
  (s1 ++ t1)%string = (s2 ++ t2)%string -> s1 = s2 /\ t1 = t2.
Proof.
  revert s2. induction s1 as [|a s1 IH]; intros [|b s2] Hlen H; simpl in H.
  - auto.
  - exfalso. apply (f_equal String.length) in H. simpl in H.
    rewrite length_append in H. lia.
  - exfalso. apply (f_equal String.length) in H. simpl in H.
    rewrite length_append in H. lia.
  - injection H as -> H. destruct (IH s2 Hlen H) as [-> ->]. auto.
Qed.

Lemma In_dayNumbers k : 1 <= k <= 31 -> In k dayNumbers.
Proof. intros H. unfold dayNumbers. simpl. lia. Qed.

Lemma twoDigitsDistinct_true : twoDigitsDistinct = true.
Proof. vm_compute. reflexivity. Qed.

Lemma twoDigits_length k :
  1 <= k <= 31 -> String.length (addLeadingZeros k 2) = 2%nat.
Proof.
  intros H. pose proof twoDigitsDistinct_true as C.
  unfold twoDigitsDistinct in C. rewrite forallb_forall in C.
  specialize (C k (In_dayNumbers k H)).
  apply andb_true_iff in C. destruct C as [C _].
  now apply Nat.eqb_eq.
Qed.

Lemma twoDigits_inj k k' :
  1 <= k <= 31 -> 1 <= k' <= 31 ->
  addLeadingZeros k 2 = addLeadingZeros k' 2 -> k = k'.
Proof.
  intros H H' E. pose proof twoDigitsDistinct_true as C.
  unfold twoDigitsDistinct in C. rewrite forallb_forall in C.
  specialize (C k (In_dayNumbers k H)).
  apply andb_true_iff in C. destruct C as [_ C].
  rewrite forallb_forall in C. specialize (C k' (In_dayNumbers k' H')).
  rewrite E, String.eqb_refl in C. simpl in C. now apply Z.eqb_eq.
Qed.

Lemma isoDate_month_day c c' :
  1 <= month c <= 12 -> 1 <= day c <= 31 ->
  1 <= month c' <= 12 -> 1 <= day c' <= 31 ->
  isoDate c = isoDate c' -> month c = month c' /\ day c = day c'.
Proof.
  intros Hm Hd Hm' Hd' E. unfold isoDate, concat in E.
  assert (Lm := twoDigits_length (month c) ltac:(lia)).
  assert (Lm' := twoDigits_length (month c') ltac:(lia)).
  assert (Ld := twoDigits_length (day c) Hd).
  assert (Ld' := twoDigits_length (day c') Hd').
  apply append_inj in E.
  2:{ simpl. rewrite !length_append. simpl. rewrite !length_append. simpl.
      lia. }
  destruct E as [_ E]. simpl in E. injection E as E.
  apply append_inj in E.
  2:{ simpl. rewrite !length_append. simpl. lia. }
  destruct E as [Em E]. simpl in E. injection E as E.
  apply append_inj in E; [|reflexivity]. destruct E as [Ed _].
  split; apply twoDigits_inj; auto; lia.
Qed.

Lemma format_yyyy_MM_dd_isoDate env t :
  format env (MkDate t) "yyyy-MM-dd"
  = Normal (isoDate (civilOfDay (localDay env t))).
Proof. reflexivity. Qed.

(** The calendar keys of two instants a whole number of days apart, from 1
    to 63, are different. *)
Lemma keys_distinct env t g a b :
  1 <= g <= 63 ->
  format env (MkDate t) "yyyy-MM-dd" = Normal a ->
  format env (MkDate (t + g * msPerDay)) "yyyy-MM-dd" = Normal b ->
  String.eqb a b = false.
Proof.
  intros Hg Ha Hb. rewrite format_yyyy_MM_dd_isoDate in Ha, Hb.
  injection Ha as <-. injection Hb as <-.
  apply String.eqb_neq. intros E.
  assert (Hday : localDay env (t + g * msPerDay) = localDay env t + g).
  { unfold localDay.
    replace (t + g * msPerDay + tzOffset env)
      with (t + tzOffset env + g * msPerDay) by lia.
    apply Z.div_add. unfold msPerDay. lia. }
  rewrite Hday in E.
  destruct (civilOfDay_range (localDay env t)) as [Hm Hd].
  destruct (civilOfDay_range (localDay env t + g)) as [Hm' Hd'].
  destruct (isoDate_month_day _ _ Hm Hd Hm' Hd' E) as [E1 E2].
  apply (civilOfDay_distinct (localDay env t) g Hg). congruence.
Qed.

(* ------------------------------------------------------------------ *)
(** ** Milestone windows *)

Lemma TimeClip_MkDate x s : TimeClip x = MkDate s -> s = x.
Proof.
  intros H. destruct (TimeClip_cases x) as [[_ E]|[_ E]]; rewrite E in H;
    [now injection H | discriminate].
Qed.

Lemma catalog_windows m :
  In m pregnancyMilestones -> 0 <= endOffset m - startOffset m <= 63.
Proof.
  unfold pregnancyMilestones. simpl.
  intros H. repeat (destruct H as [<-|H]; [cbv; split; discriminate|]).
  contradiction.
Qed.

(** For a window of the catalog the comparison of the calendar keys decides
    whether start and end are the same local day. *)
Lemma catalog_same_day env e m s f a b :
  In m pregnancyMilestones ->
  milestoneStart (MkDate e) m = MkDate s ->
  milestoneEnd (MkDate e) m = MkDate f ->
  format env (MkDate s) "yyyy-MM-dd" = Normal a ->
  format env (MkDate f) "yyyy-MM-dd" = Normal b ->
  String.eqb a b = sameLocalDay env (MkDate s) (MkDate f).
Proof.
  intros Hin Hs Hf Ha Hb.
  rewrite milestoneStart_MkDate in Hs. apply TimeClip_MkDate in Hs.
  rewrite milestoneEnd_MkDate in Hf. apply TimeClip_MkDate in Hf.
  pose proof (catalog_windows m Hin) as Hw.
  set (g := endOffset m - startOffset m) in *.
  assert (Hfs : f = s + g * msPerDay) by (subst s f g; lia).
  unfold sameLocalDay.
  destruct (Z.eq_dec g 0) as [G|G].
  - assert (Hsf : f = s) by lia. rewrite Hsf in *.
    assert (a = b) by congruence. subst b.
    now rewrite String.eqb_refl, Z.eqb_refl.
  - rewrite Hfs in Hb.
    rewrite (keys_distinct env s g a b ltac:(lia) Ha Hb).
    symmetry. apply Z.eqb_neq. rewrite Hfs. unfold localDay.
    replace (s + g * msPerDay + tzOffset env)
      with (s + tzOffset env + g * msPerDay) by lia.
    rewrite Z.div_add by (unfold msPerDay; lia). lia.
Qed.

(** The entries of [milestoneDates], one per entry of the catalog. *)
Lemma milestone_entries env r :
  isResult env r ->
  List.length (milestoneDates r) = List.length pregnancyMilestones
  /\ forall i m,
      nth_error pregnancyMilestones i = Some m ->
      exists s f startStr endStr,
        milestoneStart (estimatedLmpOf r) m = MkDate s
        /\ milestoneEnd (estimatedLmpOf r) m = MkDate f
        /\ format env (MkDate s) "MMM d" = Normal startStr
        /\ format env (MkDate f) "MMM d, yyyy" = Normal endStr
        /\ nth_error (milestoneDates r) i
           = Some {| milestoneName := name m;
                     dateRange :=
                       if sameLocalDay env (MkDate s) (MkDate f) then endStr
                       else startStr ++ " - " ++ endStr |}.
Proof.
  intros Hr.
  destruct (isResult_estimatedLmp env r Hr) as (e & He & _).
  destruct (isResult_derived env r Hr) as (_ & _ & _ & _ & _ & Hms).
  rewrite He in *. split; [exact (mapM_length _ _ _ Hms)|].
  intros i m Hi.
  destruct (mapM_nth _ _ _ Hms i m Hi) as (md & Hmd & Hnth).
  destruct (milestoneDate_inv _ _ _ _ Hmd) as (s & f & Hs & Hf).
  destruct (milestoneDate_Normal env _ _ _ _ Hs Hf)
    as (startStr & endStr & a & b & F1 & F2 & F3 & F4 & Hd).
  rewrite Hd in Hmd. injection Hmd as <-.
  exists s, f, startStr, endStr.
  rewrite <- (catalog_same_day env e m s f a b
                (nth_error_In _ _ Hi) Hs Hf F3 F4).
  auto.
Qed.

(** Claim C9 as stated fails on the separator: the window of the first
    milestone for an LMP of 1 January 2024 starts on 11 March and ends on
    7 April on different days, and its range is written with a hyphen
    between spaces, not with an en dash. *)
Lemma range_separator_is_not_en_dash :
  exists r md,
    calculatePregnancyInfo sampleEnv (Some jan1_2024) None None None
    = Normal (Some r)
    /\ nth_error (milestoneDates r) 0 = Some md
    /\ format sampleEnv (MkDate 1710115200000) "MMM d" = Normal "Mar 11"
    /\ format sampleEnv (MkDate 1712448000000) "MMM d, yyyy"
       = Normal "Apr 7, 2024"
    /\ sameLocalDay sampleEnv (MkDate 1710115200000) (MkDate 1712448000000)
       = false
    /\ dateRange md = "Mar 11 - Apr 7, 2024"
    /\ dateRange md <> "Mar 11" ++ " " ++ enDash ++ " " ++ "Apr 7, 2024".
Proof.
  eexists. eexists.
  split; [vm_compute; reflexivity|].
  split; [reflexivity|].
  repeat split. discriminate.
Qed.

(** Claim C9, amended.  In every returned record [milestoneDates] has one
    entry per entry of the catalog, in order and under its name, for the
    window from [estimatedLmp + start offset] to [estimatedLmp + end offset].
    When start and end fall on the same local calendar day the entry is the
    end date alone, formatted "MMM d, yyyy"; otherwise it is the start
    formatted "MMM d", then a space, a hyphen-minus and a space, then the end
    formatted "MMM d, yyyy".  The 'Typical anatomy scan' entry, with start
    and end at 20 weeks, is a single date. *)
Theorem milestone_date_ranges env r :
  isResult env r ->
  List.length (milestoneDates r) = List.length pregnancyMilestones
  /\ (forall i m,
        nth_error pregnancyMilestones i = Some m ->
        exists s f startStr endStr,
          milestoneStart (estimatedLmpOf r) m = MkDate s
          /\ milestoneEnd (estimatedLmpOf r) m = MkDate f
          /\ format env (MkDate s) "MMM d" = Normal startStr
          /\ format env (MkDate f) "MMM d, yyyy" = Normal endStr
          /\ nth_error (milestoneDates r) i
             = Some {| milestoneName := name m;
                       dateRange :=
                         if sameLocalDay env (MkDate s) (MkDate f) then endStr
                         else startStr ++ " - " ++ endStr |})
  /\ (exists f endStr,
        add (estimatedLmpOf r) (ofWeeks 20) = MkDate f
        /\ format env (MkDate f) "MMM d, yyyy" = Normal endStr
        /\ nth_error (milestoneDates r) 4
           = Some {| milestoneName := "Typical anatomy scan";
                     dateRange := endStr |}).
Proof.
  intros Hr. destruct (milestone_entries env r Hr) as [Hlen Hall].
  split; [exact Hlen|]. split; [exact Hall|].
  destruct (Hall 4%nat typicalAnatomyScan eq_refl)
    as (s & f & startStr & endStr & Hs & Hf & _ & F2 & Hnth).
  assert (s = f).
  { change (milestoneStart (estimatedLmpOf r) typicalAnatomyScan)
      with (milestoneEnd (estimatedLmpOf r) typicalAnatomyScan) in Hs.
    congruence. }
  subst s. exists f, endStr. repeat split; try assumption.
  unfold sameLocalDay in Hnth. rewrite Z.eqb_refl in Hnth. exact Hnth.
Qed.

Lemma milestone_date_ranges_witness :
  exists r,
    calculatePregnancyInfo sampleEnv (Some jan1_2024) None None None
    = Normal (Some r)
    /\ List.length (milestoneDates r) = 8%nat
    /\ nth_error (milestoneDates r) 4
       = Some {| milestoneName := "Typical anatomy scan";
                 dateRange := "May 20, 2024" |}.
Proof.
  eexists. split; [vm_compute; reflexivity|].
  match goal with
  | |- List.length (milestoneDates ?r) = _ /\ _ =>
      destruct (milestone_date_ranges sampleEnv r)
        as (Hlen & _ & f & endStr & Hf & Hfmt & Hnth)
  end.
  - sample_lmp_result.
  - split; [exact Hlen|].
    injection Hf as <-. injection Hfmt as <-. exact Hnth.
Defined.

(* ------------------------------------------------------------------ *)
(** ** Further properties of the dating engine *)











(* ------------------------------------------------------------------ *)
(** ** The threshold as a function of the week *)

Lemma getRedatingThreshold_Num w :
  getRedatingThreshold (Num w)
  = Num (if w <? 5 then 0 else if w <=? 8 then 5 else if w <=? 13 then 7
         else if w <=? 15 then 10 else if w <=? 21 then 14 else 21).
Proof.
  unfold getRedatingThreshold, lt, le.
  destruct (w <? 5), (w <=? 8), (w <=? 13), (w <=? 15), (w <=? 21),
    (w <=? 27); reflexivity.
Qed.


(** The redating threshold never decreases with the week and stays
    between 0 and 21 days: a later scan is never held to a tighter
    tolerance than an earlier one.  Negative weeks get 0, and a week count
    that is not a number falls through every case to the default of 21. *)
Theorem threshold_monotone a b :
  a <= b ->
  exists x y,
    getRedatingThreshold (Num a) = Num x
    /\ getRedatingThreshold (Num b) = Num y
    /\ 0 <= x /\ x <= y /\ y <= 21
    /\ (a < 0 -> x = 0)
    /\ getRedatingThreshold NaN = Num 21.
Proof.
  intros Hab. rewrite !getRedatingThreshold_Num.
  eexists. eexists. split; [reflexivity|]. split; [reflexivity|].
  split; [|split; [|split; [|split; [|reflexivity]]]].
  - destruct (Z.ltb_spec a 5), (Z.leb_spec a 8), (Z.leb_spec a 13),
      (Z.leb_spec a 15), (Z.leb_spec a 21); lia.
  - destruct (Z.ltb_spec a 5); [destruct (Z.ltb_spec b 5),
      (Z.leb_spec b 8), (Z.leb_spec b 13), (Z.leb_spec b 15),
      (Z.leb_spec b 21); lia|].
    destruct (Z.ltb_spec b 5); [lia|].
    destruct (Z.leb_spec a 8); [destruct (Z.leb_spec b 8),
      (Z.leb_spec b 13), (Z.leb_spec b 15), (Z.leb_spec b 21); lia|].
    destruct (Z.leb_spec b 8); [lia|].
    destruct (Z.leb_spec a 13); [destruct (Z.leb_spec b 13),
      (Z.leb_spec b 15), (Z.leb_spec b 21); lia|].
    destruct (Z.leb_spec b 13); [lia|].
    destruct (Z.leb_spec a 15); [destruct (Z.leb_spec b 15),
      (Z.leb_spec b 21); lia|].
    destruct (Z.leb_spec b 15); [lia|].
    destruct (Z.leb_spec a 21), (Z.leb_spec b 21); lia.
  - destruct (Z.ltb_spec b 5), (Z.leb_spec b 8), (Z.leb_spec b 13),
      (Z.leb_spec b 15), (Z.leb_spec b 21); lia.
  - intros Hneg. destruct (Z.ltb_spec a 5); [reflexivity | lia].
Qed.

Lemma threshold_monotone_witness :
  getRedatingThreshold (Num 8) = Num 5
  /\ getRedatingThreshold (Num 9) = Num 7.
Proof.
  destruct (threshold_monotone 8 9 ltac:(lia))
    as (x & y & Hx & Hy & _).
  assert (Ex : x = 5) by (vm_compute in Hx; congruence).
  assert (Ey : y = 7) by (vm_compute in Hy; congruence).
  rewrite Ex in Hx. rewrite Ey in Hy. split; [exact Hx | exact Hy].
Defined.

(* ------------------------------------------------------------------ *)
(** ** What redating does to the dates *)






(** A scan date that is an Invalid Date, with both age fields present,
    never redates: the differences in days are [NaN], every comparison
    with them is false, and the record keeps the LMP due date with
    [source = LMP_CONFIRMED], an Invalid Date as [ultrasoundEdd] and [NaN]
    as [discrepancyDays].  It is returned as soon as the LMP due date is
    a date. *)
Theorem invalid_scan_date_confirms_lmp env l w d :
  (forall r,
      calculatePregnancyInfo env (Some (MkDate l)) (Some InvalidDate)
                             (Some w) (Some d) = Normal (Some r) ->
      source r = LMP_CONFIRMED
      /\ bestEstimateEdd r = lmpEdd r
      /\ ultrasoundEdd r = InvalidDate
      /\ discrepancyDays r = NaN)
  /\ (Z.abs l <= maxTime ->
      representable (add (MkDate l) (ofDays 280)) ->
      exists r,
        calculatePregnancyInfo env (Some (MkDate l)) (Some InvalidDate)
                               (Some w) (Some d) = Normal (Some r)).
Proof.
  assert (E : redates (MkDate l) InvalidDate w d = false) by reflexivity.
  split.
  - intros r H.
    destruct (calculatePregnancyInfo_inv _ _ _ _ _ _ H)
      as (Hl & Hb & _ & _ & Hu & Hs & Hd).
    unfold chosenEdd in Hb. rewrite E in Hb, Hs.
    split; [exact Hs|]. split; [congruence|].
    split; [exact Hu | exact Hd].
  - intros Hl Hrep.
    destruct (sub_add_280 l Hl Hrep) as [_ Es].
    apply calculatePregnancyInfo_outcome.
    unfold chosenEdd. rewrite E, Es. now exists l.
Qed.

Lemma invalid_scan_date_confirms_lmp_witness :
  exists r,
    calculatePregnancyInfo sampleEnv (Some jan1_2024) (Some InvalidDate)
                           (Some 9) (Some 0) = Normal (Some r)
    /\ source r = LMP_CONFIRMED /\ discrepancyDays r = NaN.
Proof.
  destruct (proj2 (invalid_scan_date_confirms_lmp sampleEnv 1704067200000
                     9 0)) as [r Hr].
  - unfold maxTime. lia.
  - exists 1728259200000. split; [reflexivity | unfold maxTime; lia].
  - exists r. split; [exact Hr|].
    destruct (proj1 (invalid_scan_date_confirms_lmp sampleEnv 1704067200000
                       9 0) r Hr) as (Hs & _ & _ & Hd).
    split; [exact Hs | exact Hd].
Defined.





(* ------------------------------------------------------------------ *)
(** ** Reading the number fields *)









(* ------------------------------------------------------------------ *)
(** ** The hook: which engine call the effect makes *)

Lemma effect_forward env st l :
  Hook.method st <> Hook.reverseUltrasound ->
  Hook.lmpDate st = Some l ->
  Hook.effect env st =
    (info <- calculatePregnancyInfo env (Some l) (Hook.ultrasoundDate st)
               (Hook.orUndefined (Hook.parseInt (Hook.gaWeeks st)))
               (Hook.orUndefined (Hook.parseInt (Hook.gaDays st))) ;;
     Normal (Hook.setPregnancyInfo st info)).
Proof.
  intros Hm Hl. unfold Hook.effect. rewrite Hl.
  destruct (Hook.method st); try reflexivity. contradiction.
Qed.

(** With a valid LMP date the forward entry point never returns [null]. *)
Lemma calculatePregnancyInfo_not_null env l us w d :
  calculatePregnancyInfo env (Some (MkDate l)) us w d <> Normal None.
Proof.
  destruct (calculatePregnancyInfo_shape env l us w d) as [mk ->].
  destruct (mapM _ pregnancyMilestones); discriminate.
Qed.

Lemma orUndefined_None n : Hook.orUndefined n = None <-> n = NaN.
Proof. destruct n; simpl; split; intros H; congruence. Qed.

(** The methods [lmp] and [ultrasound] run the same computation on the
    same cells: with a valid LMP date the effect stores a record, whose
    source is [LMP] exactly when the scan date is missing or one of the
    two number fields does not parse, whatever the method selected, and
    switching between the two methods leaves the result as it is.  So a
    scan left in the state from the [ultrasound] method still dates, and
    can redate, under the method [lmp]. *)
Theorem forward_methods_share_dating env st l st' :
  Hook.method st <> Hook.reverseUltrasound ->
  Hook.lmpDate st = Some (MkDate l) ->
  Hook.effect env st = Normal st' ->
  exists r,
    st' = Hook.setPregnancyInfo st (Some r)
    /\ (source r = LMP <->
        Hook.ultrasoundDate st = None
        \/ Hook.parseInt (Hook.gaWeeks st) = NaN
        \/ Hook.parseInt (Hook.gaDays st) = NaN)
    /\ (forall m, m <> Hook.reverseUltrasound ->
          Hook.effect env (Hook.setMethod st m)
          = Normal (Hook.setMethod st' m)).
Proof.
  intros Hm Hl H.
  pose proof H as H0.
  rewrite (effect_forward env st _ Hm Hl) in H.
  destruct (calculatePregnancyInfo env (Some (MkDate l))
              (Hook.ultrasoundDate st)
              (Hook.orUndefined (Hook.parseInt (Hook.gaWeeks st)))
              (Hook.orUndefined (Hook.parseInt (Hook.gaDays st))))
    as [[r|]|e] eqn:Hc; try discriminate H.
  2:{ exfalso. exact (calculatePregnancyInfo_not_null _ _ _ _ _ Hc). }
  simpl in H. injection H as <-.
  exists r. split; [reflexivity|]. split.
  - destruct (calculatePregnancyInfo_inv _ _ _ _ _ _ Hc)
      as (_ & _ & _ & _ & Hus).
    destruct (Hook.ultrasoundDate st) as [u|],
             (Hook.parseInt (Hook.gaWeeks st)) as [w|],
             (Hook.parseInt (Hook.gaDays st)) as [d|];
      simpl in Hus;
      try (destruct Hus as (_ & Hs & _); split; [intros _|intros _; exact Hs];
           auto).
    destruct Hus as (_ & Hs & _). rewrite Hs. split.
    + destruct (redates (MkDate l) u w d); discriminate.
    + intros [C|[C|C]]; discriminate C.
  - intros m Hm'.
    rewrite (effect_forward env (Hook.setMethod st m) (MkDate l));
      [|destruct m; [discriminate|discriminate|contradiction] | exact Hl].
    cbn [Hook.setMethod Hook.ultrasoundDate Hook.gaWeeks Hook.gaDays].
    rewrite Hc. reflexivity.
Qed.

(** Under the method [lmp], the scan of scenario 2 still redates. *)
Lemma forward_methods_share_dating_witness :
  exists r,
    Hook.effect sampleEnv
      {| Hook.method := Hook.lmp;
         Hook.lmpDate := Some jan1_2024;
         Hook.ultrasoundDate := Some feb26_2024;
         Hook.gaWeeks := "9"; Hook.gaDays := "0";
         Hook.eddDate := None; Hook.pregnancyInfo := None |}
    = Normal
      {| Hook.method := Hook.lmp;
         Hook.lmpDate := Some jan1_2024;
         Hook.ultrasoundDate := Some feb26_2024;
         Hook.gaWeeks := "9"; Hook.gaDays := "0";
         Hook.eddDate := None; Hook.pregnancyInfo := Some r |}
    /\ source r <> LMP.
Proof.
  eexists. split; [vm_compute; reflexivity|].
  match goal with
  | |- source ?r <> LMP =>
      destruct (forward_methods_share_dating sampleEnv
        {| Hook.method := Hook.lmp;
           Hook.lmpDate := Some jan1_2024;
           Hook.ultrasoundDate := Some feb26_2024;
           Hook.gaWeeks := "9"; Hook.gaDays := "0";
           Hook.eddDate := None; Hook.pregnancyInfo := None |}
        1704067200000
        {| Hook.method := Hook.lmp;
           Hook.lmpDate := Some jan1_2024;
           Hook.ultrasoundDate := Some feb26_2024;
           Hook.gaWeeks := "9"; Hook.gaDays := "0";
           Hook.eddDate := None; Hook.pregnancyInfo := Some r |})
        as (r' & Hst & Hsrc & _)
  end.
  - discriminate.
  - reflexivity.
  - vm_compute. reflexivity.
  - injection Hst as <-. intros Hs. apply Hsrc in Hs.
    destruct Hs as [C|[C|C]]; vm_compute in C; discriminate C.
Defined.

(** The forward call made for the method [reverseUltrasound] never
    happens: the effect looks at the known due date only.  Without one, or
    with an Invalid Date, it stores [null]; a stored record has the cell's
    date as its authoritative due date, with source [Ultrasound]; the other
    input cells have no influence; and a date the picker accepts (one not
    before 1 January 1900) always gives a record. *)
Theorem reverse_method_reads_edd_only env st :
  Hook.method st = Hook.reverseUltrasound ->
  (Hook.eddDate st = None \/ Hook.eddDate st = Some InvalidDate ->
   Hook.effect env st = Normal (Hook.setPregnancyInfo st None))
  /\ (forall st' r,
        Hook.effect env st = Normal st' ->
        Hook.pregnancyInfo st' = Some r ->
        Hook.eddDate st = Some (bestEstimateEdd r)
        /\ source r = Ultrasound /\ discrepancyDays r = Num 0)
  /\ (forall st2,
        Hook.method st2 = Hook.reverseUltrasound ->
        Hook.eddDate st2 = Hook.eddDate st ->
        (s <- Hook.effect env st2 ;; Normal (Hook.pregnancyInfo s))
        = (s <- Hook.effect env st ;; Normal (Hook.pregnancyInfo s)))
  /\ (forall t,
        Hook.eddDate st = Some (MkDate t) -> Z.abs t <= maxTime ->
        Form.eddDisabled env (MkDate t) = false ->
        exists r,
          Hook.effect env st = Normal (Hook.setPregnancyInfo st (Some r))).
Proof.
  intros Hm. unfold Hook.effect. rewrite Hm.
  split; [|split; [|split]].
  - intros [E|E]; rewrite E; reflexivity.
  - intros st' r H Hr.
    destruct (Hook.eddDate st) as [[t|]|];
      try (injection H as <-; discriminate Hr).
    destruct (calculatePregnancyFromEdd env (Some (MkDate t)))
      as [[r'|]|e] eqn:Hc; try discriminate H;
      simpl in H; injection H as <-; simpl in Hr; [|discriminate Hr].
    injection Hr as ->.
    destruct (calculatePregnancyFromEdd_inv _ _ _ Hc)
      as (_ & _ & Hb & Hs & Hd & _).
    rewrite Hb. repeat split; assumption.
  - intros st2 Hm2 He2. rewrite Hm2, He2.
    destruct (Hook.eddDate st) as [edd|]; [|reflexivity].
    destruct (calculatePregnancyFromEdd env (Some edd)); reflexivity.
  - intros t He Ht Hdis. rewrite He.
    apply orb_false_iff in Hdis. destruct Hdis as [Hlo _].
    unfold Form.date1900, after in Hlo. rewrite Z.gtb_ltb in Hlo.
    apply Z.ltb_ge in Hlo.
    destruct (calculatePregnancyFromEdd_outcome env t Ht) as [Hok _].
    destruct Hok as [r Hr].
    { rewrite sub_days. exists (t - 280 * msPerDay).
      split; [apply TimeClip_in_range|]; range_arith. }
    exists r. rewrite Hr. reflexivity.
Qed.

(** The known due date of the specification's reverse scenario. *)
Lemma reverse_method_reads_edd_only_witness :
  exists r,
    Hook.effect sampleEnv
      {| Hook.method := Hook.reverseUltrasound;
         Hook.lmpDate := Some jan1_2024;
         Hook.ultrasoundDate := None;
         Hook.gaWeeks := EmptyString; Hook.gaDays := EmptyString;
         Hook.eddDate := Some (MkDate 1728259200000);
         Hook.pregnancyInfo := None |}
    = Normal
      {| Hook.method := Hook.reverseUltrasound;
         Hook.lmpDate := Some jan1_2024;
         Hook.ultrasoundDate := None;
         Hook.gaWeeks := EmptyString; Hook.gaDays := EmptyString;
         Hook.eddDate := Some (MkDate 1728259200000);
         Hook.pregnancyInfo := Some r |}.
Proof.
  destruct (reverse_method_reads_edd_only sampleEnv
      {| Hook.method := Hook.reverseUltrasound;
         Hook.lmpDate := Some jan1_2024;
         Hook.ultrasoundDate := None;
         Hook.gaWeeks := EmptyString; Hook.gaDays := EmptyString;
         Hook.eddDate := Some (MkDate 1728259200000);
         Hook.pregnancyInfo := None |} eq_refl)
    as (_ & _ & _ & H).
  destruct (H 1728259200000 eq_refl) as [r Hr].
  - unfold maxTime. lia.
  - reflexivity.
  - exists r. exact Hr.
Defined.



(* ------------------------------------------------------------------ *)
(** ** Inputs within and beyond the bounds of the form *)







(* ------------------------------------------------------------------ *)
(** ** The range of the due-date picker *)

(** The year that starts on 1 March, with the decomposition of the day
    number that [marchYear] computes. *)
Lemma marchYear_year z :
  exists a b c e,
    fst (marchYear z) = 400 * a + 100 * b + 4 * c + e
    /\ z = 146097 * a + 36524 * b + 1461 * c + 365 * e + snd (marchYear z)
    /\ 0 <= b <= 3 /\ 0 <= c <= 24 /\ 0 <= e <= 3
    /\ 0 <= snd (marchYear z) <= 365.
Proof.
  cbv beta zeta iota delta [marchYear fst snd].
  exists (z / 146097), (Z.min (z mod 146097 / 36524) 3).
  set (r400 := z mod 146097).
  set (n100 := Z.min (r400 / 36524) 3).
  set (r100 := r400 - n100 * 36524).
  exists (r100 / 1461), (Z.min (r100 mod 1461 / 365) 3).
  assert (H400 : 0 <= r400 < 146097) by (apply Z.mod_pos_bound; lia).
  assert (Hz : z = 146097 * (z / 146097) + r400) by (apply Z.div_mod; lia).
  assert (Hn100 : 0 <= n100 <= 3 /\ 0 <= r100 <= 36524).
  { unfold r100, n100.
    pose proof (Z.div_mod r400 36524 ltac:(lia)).
    pose proof (Z.mod_pos_bound r400 36524 ltac:(lia)).
    assert (0 <= r400 / 36524 <= 4).
    { split; [apply Z.div_pos; lia|]. apply Z.div_le_upper_bound; lia. }
    lia. }
  assert (H4 : 0 <= r100 mod 1461 < 1461) by (apply Z.mod_pos_bound; lia).
  assert (Hr : r100 = 1461 * (r100 / 1461) + r100 mod 1461)
    by (apply Z.div_mod; lia).
  assert (Hc : 0 <= r100 / 1461 <= 24).
  { split; [apply Z.div_pos; lia|].
    assert (r100 / 1461 < 25) by (apply Z.div_lt_upper_bound; lia). lia. }
  set (r4 := r100 mod 1461) in *.
  assert (0 <= r4 / 365 <= 4).
  { split; [apply Z.div_pos; lia|]. apply Z.div_le_upper_bound; lia. }
  pose proof (Z.div_mod r4 365 ltac:(lia)).
  pose proof (Z.mod_pos_bound r4 365 ltac:(lia)).
  repeat split; try lia.
Qed.

(** The day number of 31 December, by the count of leap years. *)
Lemma dayOfCivil_december31 y :
  Form.dayOfCivil y 12 31
  = 365 * y + y / 4 - y / 100 + y / 400 + 305 - 719468.
Proof.
  cbv beta zeta iota delta [Form.dayOfCivil].
  change (12 <=? 2) with false. change (12 >? 2) with true. cbv iota.
  change ((153 * (12 - 3) + 2) / 5 + 31 - 1) with 305.
  Z.div_mod_to_equations. lia.
Qed.

(** Days from 1 March of year 0 to 1 March of the year with the given
    decomposition. *)
Lemma march_first a b c e :
  0 <= b <= 3 -> 0 <= c <= 24 -> 0 <= e <= 3 ->
  let y := 400 * a + 100 * b + 4 * c + e in
  365 * y + y / 4 - y / 100 + y / 400
  = 146097 * a + 36524 * b + 1461 * c + 365 * e.
Proof.
  intros Hb Hc He y.
  assert (H4 : y / 4 = 100 * a + 25 * b + c).
  { symmetry. apply Z.div_unique with (r := e); unfold y; lia. }
  assert (H100 : y / 100 = 4 * a + b).
  { symmetry. apply Z.div_unique with (r := 4 * c + e); unfold y; lia. }
  assert (H400 : y / 400 = a).
  { symmetry. apply Z.div_unique with (r := 100 * b + 4 * c + e);
      unfold y; lia. }
  rewrite H4, H100, H400. unfold y. lia.
Qed.

(** Up to three years in a row hold at most one leap day. *)
Lemma year_span y k :
  0 <= k <= 3 ->
  365 * k
  <= (365 * (y + k) + (y + k) / 4 - (y + k) / 100 + (y + k) / 400)
     - (365 * y + y / 4 - y / 100 + y / 400)
  <= 365 * k + 1.
Proof.
  intros Hk.
  assert (H4 : 0 <= (y + k) / 4 - y / 4 <= 1)
    by (Z.div_mod_to_equations; lia).
  assert (H100 : 0 <= (y + k) / 100 - y / 100 <= 1)
    by (Z.div_mod_to_equations; lia).
  assert (H400 : 0 <= (y + k) / 400 - y / 400 <= 1)
    by (Z.div_mod_to_equations; lia).
  assert (Hc : (y + k) / 100 - y / 100 <= (y + k) / 4 - y / 4)
    by (Z.div_mod_to_equations; lia).
  assert (Hd : (y + k) / 400 - y / 400 <= (y + k) / 100 - y / 100)
    by (Z.div_mod_to_equations; lia).
  lia.
Qed.

(** January and February are the days from 306 on of the year that
    starts in March. *)
Lemma monthDay_january doy :
  0 <= doy <= 365 -> (fst (monthDay doy) <=? 2) = (306 <=? doy).
Proof.
  intros H. cbv beta zeta iota delta [monthDay fst].
  destruct (Z.ltb_spec ((5 * doy + 2) / 153) 10) as [Hm|Hm];
    destruct (Z.leb_spec 306 doy) as [Hd|Hd];
    [exfalso | apply Z.leb_gt | apply Z.leb_le | exfalso];
    revert Hm; Z.div_mod_to_equations; lia.
Qed.

(** From a day on or after 1 January 1970, 31 December of the year after
    next is 730 to 1095 days away. *)
Lemma december31_bounds n :
  0 <= n ->
  1969 <= year (civilOfDay n)
  /\ n + 730 <= Form.dayOfCivil (year (civilOfDay n) + 2) 12 31 <= n + 1095.
Proof.
  intros Hn. rewrite dayOfCivil_december31.
  cbv beta zeta iota delta [civilOfDay year].
  destruct (marchYear_year (n + 719468))
    as (a & b & c & e & Hy & Hz & Hb & Hc & He & Hd).
  rewrite (monthDay_january _ Hd).
  set (my := fst (marchYear (n + 719468))) in *.
  set (doy := snd (marchYear (n + 719468))) in *.
  pose proof (march_first a b c e Hb Hc He) as Hs. cbv zeta in Hs.
  rewrite <- Hy in Hs.
  assert (Hmy : 1969 <= my).
  { destruct (Z.lt_ge_cases my 1969) as [C|C]; [exfalso | exact C].
    assert (365 * my + my / 4 - my / 100 + my / 400 <= 719102)
      by (Z.div_mod_to_equations; lia).
    lia. }
  pose proof (year_span my 2 ltac:(lia)) as H2.
  pose proof (year_span my 3 ltac:(lia)) as H3.
  destruct (Z.leb_spec 306 doy) as [Hjan|Hmar].
  - replace (my + 1 + 2) with (my + 3) by lia. lia.
  - lia.
Qed.

(** The due-date picker, for a clock after 1 January 1970 local time:
    dates before 1 January 1900 are refused; every date from there up to
    729 days after [now] is accepted, so a due date of a pregnancy under
    way can always be picked; dates more than 1095 days after [now] are
    refused again, since the upper bound is the start of 31 December of
    the year after next. *)
Theorem edd_picker_window env t :
  0 <= now env + tzOffset env ->
  (t < -2208988800000 -> Form.eddDisabled env (MkDate t) = true)
  /\ (-2208988800000 <= t <= now env + 729 * msPerDay ->
      Form.eddDisabled env (MkDate t) = false)
  /\ (Z.abs (now env) + 1096 * msPerDay <= maxTime ->
      Z.abs (tzOffset env) <= msPerDay ->
      now env + 1095 * msPerDay < t ->
      Form.eddDisabled env (MkDate t) = true).
Proof.
  intros Hclock.
  unfold Form.eddDisabled, Form.currentYear, Form.newDate, Form.date1900.
  set (n := localDay env (now env)).
  assert (Hn : 0 <= n) by (apply Z.div_pos; unfold msPerDay; lia).
  destruct (december31_bounds n Hn) as (Hy & Hlo & Hhi).
  set (y := year (civilOfDay n)) in *.
  change (11 + 1) with 12.
  set (u := Form.dayOfCivil (y + 2) 12 31) in *.
  assert (Hfull : (0 <=? y + 2) && (y + 2 <=? 99) = false).
  { apply andb_false_iff. right. apply Z.leb_gt. lia. }
  rewrite Hfull. fold u.
  assert (Hday : n * msPerDay <= now env + tzOffset env < (n + 1) * msPerDay).
  { unfold n, localDay.
    pose proof (Z.div_mod (now env + tzOffset env) msPerDay
                  ltac:(unfold msPerDay; lia)).
    pose proof (Z.mod_pos_bound (now env + tzOffset env) msPerDay
                  ltac:(unfold msPerDay; lia)).
    lia. }
  clearbody u n.
  split; [|split].
  - intros Ht. apply orb_true_iff. left.
    unfold after. rewrite Z.gtb_ltb. apply Z.ltb_lt. exact Ht.
  - intros Ht. apply orb_false_iff. split.
    + unfold after. rewrite Z.gtb_ltb. apply Z.ltb_ge. lia.
    + destruct (TimeClip_cases (u * msPerDay - tzOffset env))
        as [[_ E]|[_ E]]; rewrite E; [|reflexivity].
      unfold after. rewrite Z.gtb_ltb. apply Z.ltb_ge.
      unfold msPerDay in *. lia.
  - intros Hroom Htz Ht. apply orb_true_iff. right.
    rewrite TimeClip_in_range by range_arith.
    unfold after. rewrite Z.gtb_ltb. apply Z.ltb_lt.
    unfold msPerDay in *. lia.
Qed.

(** On 10 June 2024 the due date 7 October 2024 can be picked, and the
    year 2028 cannot. *)
Lemma edd_picker_window_witness :
  Form.eddDisabled sampleEnv (MkDate 1728259200000) = false
  /\ Form.eddDisabled sampleEnv (MkDate 1830000000000) = true.
Proof.
  split.
  - apply (edd_picker_window sampleEnv 1728259200000);
      simpl; unfold msPerDay; lia.
  - apply (edd_picker_window sampleEnv 1830000000000);
      simpl; unfold maxTime, msPerDay; lia.
Defined.

(* ------------------------------------------------------------------ *)
(** ** The object returned by [useQuickReferenceDatabase] *)

Lemma get_define {V : Type} (o : QuickReference.Obj V) k v k' :
  QuickReference.get (QuickReference.define o k v) k'
  = if String.eqb k' k then Some v else QuickReference.get o k'.
Proof.
  induction o as [|[k0 v0] o IH]; simpl.
  - reflexivity.
  - destruct (String.eqb_spec k k0) as [->|Hne]; simpl.
    + destruct (String.eqb k' k0); reflexivity.
    + rewrite IH.
      destruct (String.eqb_spec k' k0) as [->|Hne'];
        [|reflexivity].
      destruct (String.eqb_spec k0 k) as [E|_]; [|reflexivity].
      now contradiction Hne.
Qed.

Lemma get_absent {V : Type} (o : QuickReference.Obj V) k :
  ~ In k (map fst o) -> QuickReference.get o k = None.
Proof.
  induction o as [|[k0 v0] o IH]; simpl; intros H; [reflexivity|].
  destruct (String.eqb_spec k k0) as [->|_]; [|apply IH; tauto].
  exfalso. apply H. now left.
Qed.

(** Spreading an object with distinct keys: its properties win, the
    others stay. *)
Lemma get_spread {V : Type} (src o : QuickReference.Obj V) k :
  NoDup (map fst src) ->
  QuickReference.get (QuickReference.spread o src) k
  = match QuickReference.get src k with
    | Some v => Some v
    | None => QuickReference.get o k
    end.
Proof.
  unfold QuickReference.spread.
  intros Hnd. revert o.
  induction src as [|[k0 v0] src IH]; intros o; simpl; [reflexivity|].
  inversion Hnd as [|? ? Hnotin Hnd']; subst.
  rewrite (IH Hnd'), get_define.
  destruct (String.eqb_spec k k0) as [->|_]; [|reflexivity].
  rewrite (get_absent src k0 Hnotin). reflexivity.
Qed.

(** In the object the hook returns, a later property replaces an earlier
    one of the same name: [validateMedication] is always the hook's own
    callback; any other name comes from the calculation hook if it has
    it, else from the filtering hook, and only then from the hook's own
    [medications], [categories], [isLoading] and [error].  So a property
    of one of these four names in either spread object hides the value
    the hook was given. *)
Theorem later_properties_win {V : Type}
  (meds cats loading err cb : V)
  (filtering calculation : QuickReference.Obj V) (k : string) :
  NoDup (map fst filtering) -> NoDup (map fst calculation) ->
  let o := QuickReference.useQuickReferenceDatabase
             meds cats loading err cb filtering calculation in
  let own :=
    if String.eqb k "medications" then Some meds
    else if String.eqb k "categories" then Some cats
    else if String.eqb k "isLoading" then Some loading
    else if String.eqb k "error" then Some err
    else None in
  QuickReference.get o "validateMedication" = Some cb
  /\ (k <> "validateMedication" ->
      QuickReference.get o k
      = match QuickReference.get calculation k with
        | Some v => Some v
        | None =>
            match QuickReference.get filtering k with
            | Some v => Some v
            | None => own
            end
        end).
Proof.
  intros Hf Hc. cbv zeta.
  unfold QuickReference.useQuickReferenceDatabase.
  split.
  - rewrite get_define, String.eqb_refl. reflexivity.
  - intros Hk. rewrite get_define.
    destruct (String.eqb_spec k "validateMedication") as [E|_];
      [contradiction|].
    rewrite (get_spread calculation _ k Hc), (get_spread filtering _ k Hf).
    rewrite !get_define.
    destruct (QuickReference.get calculation k); [reflexivity|].
    destruct (QuickReference.get filtering k); [reflexivity|].
    simpl.
    destruct (String.eqb_spec k "medications") as [->|H1]; [reflexivity|].
    destruct (String.eqb_spec k "categories") as [->|H2]; [reflexivity|].
    destruct (String.eqb_spec k "isLoading") as [->|H3]; [reflexivity|].
    destruct (String.eqb_spec k "error") as [->|H4]; reflexivity.
Qed.

(** A filtering hook that returns its own [medications] hides the list
    the hook was given. *)
Lemma later_properties_win_witness :
  QuickReference.get
    (QuickReference.useQuickReferenceDatabase
       "all" "categories" "false" "null" "validate"
       [("medications", "filtered"); ("sort", "name")]
       [("dose", "calculated")])
    "medications"
  = Some "filtered".
Proof.
  destruct (later_properties_win "all" "categories" "false" "null" "validate"
              [("medications", "filtered"); ("sort", "name")]
              [("dose", "calculated")] "medications") as [_ H].
  - repeat constructor; simpl; intuition discriminate.
  - repeat constructor; simpl; intuition discriminate.
  - apply H. discriminate.
Defined.
